(** * Elenora-Group/Logger: the leveled logger of [src/index.ts]

    A shallow embedding of the [Logger] class: its configuration record and
    accessors, the six per-level operations, the shared [log] routine and the
    rotating file appender [writeLine].  Console output, the file system, the
    clock and the call stack are explicit state; every call into a library
    (util.inspect, luxon, stacktrace-js, fs, console) leaves an event in the
    run's trace, so that "nothing was done" is a statement about the trace. *)

From Stdlib Require Import ZArith String Ascii DecimalString Lia.
From stdpp Require Import gmap strings list.

Set Warnings "-register-all".
Local Open Scope string_scope.
Local Open Scope Z_scope.

(** ** JavaScript strings *)

Module JsString.

(** The text before and after the first occurrence of [pat] in [s]. *)
Fixpoint split_first (pat s : string) : option (string * string) :=
  if String.prefix pat s then
    Some (EmptyString, String.substring (String.length pat)
                         (String.length s - String.length pat)%nat s)
  else
    match s with
    | EmptyString => None
    | String c s' =>
        match split_first pat s' with
        | Some (before, after) => Some (String c before, after)
        | None => None
        end
    end.

(** ECMAScript's GetSubstitution for a string pattern (no capture groups):
    in the replacement text [$$] stands for a dollar sign, [$&] for the
    matched text, [$`] for the text before the match and [$'] for the text
    after it; any other use of the dollar sign is literal. *)
Fixpoint GetSubstitution (matched before after replacement : string) : string :=
  match replacement with
  | EmptyString => EmptyString
  | String c rest =>
      if Ascii.eqb c "$" then
        match rest with
        | EmptyString => String c EmptyString
        | String d rest' =>
            if Ascii.eqb d "$" then
              String "$" (GetSubstitution matched before after rest')
            else if Ascii.eqb d "&" then
              matched +:+ GetSubstitution matched before after rest'
            else if Ascii.eqb d "`" then
              before +:+ GetSubstitution matched before after rest'
            else if Ascii.eqb d "'" then
              after +:+ GetSubstitution matched before after rest'
            else String c (GetSubstitution matched before after rest)
        end
      else String c (GetSubstitution matched before after rest)
  end.

(** [String.prototype.replace] with a string pattern: the first occurrence
    only, the replacement text read by [GetSubstitution]. *)
Definition replace (s pat replacement : string) : string :=
  match split_first pat s with
  | None => s
  | Some (before, after) =>
      before +:+ GetSubstitution pat before after replacement +:+ after
  end.

(** Is [pat] a substring of [s]? *)
Definition includes (s pat : string) : bool :=
  match split_first pat s with Some _ => true | None => false end.

End JsString.

(** ** JavaScript values *)

(** The values a caller may pass as [...args: any].  Numbers are the
    integer-valued ones, printed in decimal; a function carries the source
    text that [Function.prototype.toString] gives for it. *)
Inductive JsValue : Type :=
| JUndefined
| JNull
| JBoolean (b : bool)
| JNumber (n : Z)
| JBigInt (n : Z)
| JString (s : string)
| JSymbol (description : string)
| JFunction (source : string)
| JArray (elements : list JsValue)
| JObject (properties : list (string * JsValue)).

(** The [typeof] operator. *)
Definition typeof (v : JsValue) : string :=
  match v with
  | JUndefined => "undefined"
  | JNull => "object"
  | JBoolean _ => "boolean"
  | JNumber _ => "number"
  | JBigInt _ => "bigint"
  | JString _ => "string"
  | JSymbol _ => "symbol"
  | JFunction _ => "function"
  | JArray _ => "object"
  | JObject _ => "object"
  end.

(** [Number.prototype.toString] on an integer-valued number of magnitude
    below 1e21, which is written in plain decimal digits; from 1e21 on the
    engine writes an exponent, and no line or column number gets there. *)
Definition number_toString (n : Z) : string :=
  NilZero.string_of_int (Z.to_int n).

(** Exceptions a logging call can end with. *)
Inductive Errno : Set := ENOENT | EACCES | EEXIST.

Inductive JsError : Type :=
| SystemError (code : Errno) (syscall : string)
| TypeError (message : string).

(** The abstract operation ToString.  A Symbol has no implicit string
    conversion; an array is its elements joined by commas; an object with
    the inherited [toString] is "[object Object]". *)
Fixpoint ToString (v : JsValue) : JsError + string :=
  match v with
  | JUndefined => inr "undefined"
  | JNull => inr "null"
  | JBoolean true => inr "true"
  | JBoolean false => inr "false"
  | JNumber n => inr (number_toString n)
  | JBigInt n => inr (number_toString n)
  | JString s => inr s
  | JSymbol _ => inl (TypeError "Cannot convert a Symbol value to a string")
  | JFunction src => inr src
  | JArray elements =>
      (fix items (l : list JsValue) : JsError + string :=
         match l with
         | [] => inr EmptyString
         | x :: rest =>
             match (match x with
                    | JUndefined | JNull => inr EmptyString
                    | _ => ToString x
                    end) with
             | inl e => inl e
             | inr s =>
                 match rest with
                 | [] => inr s
                 | _ :: _ =>
                     match items rest with
                     | inl e => inl e
                     | inr t => inr (s +:+ "," +:+ t)
                     end
                 end
             end
         end) elements
  | JObject _ => inr "[object Object]"
  end.

(** One element of [Array.prototype.join]: undefined and null give the
    empty string, everything else goes through ToString. *)
Definition join_element (v : JsValue) : JsError + string :=
  match v with
  | JUndefined | JNull => inr EmptyString
  | _ => ToString v
  end.

(** [Array.prototype.join]: the elements' strings with [sep] between
    neighbours; the first element that cannot be converted throws. *)
Fixpoint join (parsed : list JsValue) (sep : string) : JsError + string :=
  match parsed with
  | [] => inr EmptyString
  | v :: rest =>
      match join_element v with
      | inl e => inl e
      | inr s =>
          match rest with
          | [] => inr s
          | _ :: _ =>
              match join rest sep with
              | inl e => inl e
              | inr t => inr (s +:+ sep +:+ t)
              end
          end
      end
  end.

(** ** Libraries the logger calls *)

(** The colours of [chalk] the logger uses. *)
Inductive ChalkStyle : Set :=
  gray | blue | greenBright | yellowBright | redBright | bgRedBright.

(** What lies outside the repository and is not modelled in detail: the
    text util.inspect prints for a value, luxon's rendering of an instant
    (milliseconds since the epoch) under a format, the date
    [toLocaleDateString] prints for an instant under a locale, and the
    escape sequences chalk wraps a text in. *)
Class Platform : Type := {
  inspect : JsValue -> string;
  toFormat : Z -> string -> string;
  toLocaleDateString : Z -> string -> string;
  chalk : ChalkStyle -> string -> string
}.

(** A frame as stacktrace-js reports it, through the accessors
    getFileName, getLineNumber, getFunctionName and getColumnNumber, which
    are declared to return a string, a number, a string and a number. *)
Record StackFrame : Type := {
  getFileName : string;
  getLineNumber : Z;
  getFunctionName : string;
  getColumnNumber : Z
}.

(** The frame of a method of [src/index.ts] that is executing the call at
    the given line and column.  The file is named by its path in the
    repository; at run time the name is the path the module was loaded
    from, one and the same for every frame of the logger. *)
Definition at_ (functionName : string) (line column : Z) : StackFrame :=
  {| getFileName := "src/index.ts"; getLineNumber := line;
     getFunctionName := functionName; getColumnNumber := column |}.

Module path.

(** [path.join] of a normalised directory and one plain segment. *)
Definition join (dir segment : string) : string :=
  if String.eqb dir EmptyString then segment
  else if String.eqb (String.substring (String.length dir - 1) 1 dir) "/"
       then dir +:+ segment
       else dir +:+ "/" +:+ segment.

End path.

(** ** Severity levels *)

Module LEVEL.

Inductive t : Set := debug | info | success | warning | error | notice.

(** The numeric value of each member of the enum. *)
Definition rank (l : t) : Z :=
  match l with
  | debug => 0 | info => 1 | success => 2
  | warning => 3 | error => 4 | notice => 5
  end.

End LEVEL.

Definition LEVEL_TAG (l : LEVEL.t) : string :=
  match l with
  | LEVEL.debug => " debug "
  | LEVEL.info => " info  "
  | LEVEL.success => "success"
  | LEVEL.warning => "warning"
  | LEVEL.error => " error "
  | LEVEL.notice => "notice "
  end.

Definition LEVEL_COLOR `{Platform} (l : LEVEL.t) : string :=
  match l with
  | LEVEL.debug => chalk gray " debug "
  | LEVEL.info => chalk blue " info  "
  | LEVEL.success => chalk greenBright "success"
  | LEVEL.warning => chalk yellowBright "warning"
  | LEVEL.error => chalk redBright " error "
  | LEVEL.notice => chalk bgRedBright "notice "
  end.

(** ** The file system *)

Module fs.

(** A regular file: what it holds, when it was created, and whether the
    process may open it for writing. *)
Record File : Type := {
  content : string;
  birthtimeMs : Z;
  file_writable : bool
}.

(** A directory of log files; [dir_writable] is the permission to create
    and rename entries. *)
Record Directory : Type := {
  entries : gmap string File;
  dir_writable : bool
}.

(** The directories that hold log files, by path, each with its regular
    files.  The rest of the tree is summarised by [mkdir_error]: the error creating a directory at a
    path would meet (ENOENT for a missing parent, EACCES for a parent
    that may not be written), or [None] when it can be created. *)
Record FileSystem : Type := {
  dirs : gmap string Directory;
  mkdir_error : string -> option Errno
}.

Definition with_dir (fsys : FileSystem) (dir : string) (d : Directory)
  : FileSystem :=
  {| dirs := <[dir := d]> (dirs fsys); mkdir_error := mkdir_error fsys |}.

Definition existsSync (fsys : FileSystem) (p : string) : bool :=
  match dirs fsys !! p with Some _ => true | None => false end.

(** Not recursive: the parent must be there already. *)
Definition mkdirSync (fsys : FileSystem) (p : string) : Errno + FileSystem :=
  match dirs fsys !! p with
  | Some _ => inl EEXIST
  | None =>
      match mkdir_error fsys p with
      | Some e => inl e
      | None => inr (with_dir fsys p {| entries := ∅; dir_writable := true |})
      end
  end.

Definition statSync (fsys : FileSystem) (dir name : string) : Errno + File :=
  match dirs fsys !! dir with
  | None => inl ENOENT
  | Some d =>
      match entries d !! name with
      | None => inl ENOENT
      | Some f => inr f
      end
  end.

(** Renaming inside one directory; an entry already at [new_name] is
    replaced. *)
Definition renameSync (fsys : FileSystem) (dir old_name new_name : string)
  : Errno + FileSystem :=
  match dirs fsys !! dir with
  | None => inl ENOENT
  | Some d =>
      match entries d !! old_name with
      | None => inl ENOENT
      | Some f =>
          if dir_writable d then
            inr (with_dir fsys dir
                   {| entries := <[new_name := f]> (delete old_name (entries d));
                      dir_writable := dir_writable d |})
          else inl EACCES
      end
  end.

(** Appends to the file, creating it (born at [now]) when it is absent. *)
Definition appendFileSync (fsys : FileSystem) (now : Z) (dir name data : string)
  : Errno + FileSystem :=
  match dirs fsys !! dir with
  | None => inl ENOENT
  | Some d =>
      match entries d !! name with
      | Some f =>
          if file_writable f then
            inr (with_dir fsys dir
                   {| entries :=
                        <[name := {| content := content f +:+ data;
                                     birthtimeMs := birthtimeMs f;
                                     file_writable := file_writable f |}]>
                          (entries d);
                      dir_writable := dir_writable d |})
          else inl EACCES
      | None =>
          if dir_writable d then
            inr (with_dir fsys dir
                   {| entries :=
                        <[name := {| content := data; birthtimeMs := now;
                                     file_writable := true |}]> (entries d);
                      dir_writable := dir_writable d |})
          else inl EACCES
      end
  end.

(** Replaces what the file holds, creating it (born at [now]) when it is
    absent. *)
Definition writeFileSync (fsys : FileSystem) (now : Z) (dir name data : string)
  : Errno + FileSystem :=
  match dirs fsys !! dir with
  | None => inl ENOENT
  | Some d =>
      match entries d !! name with
      | Some f =>
          if file_writable f then
            inr (with_dir fsys dir
                   {| entries :=
                        <[name := {| content := data;
                                     birthtimeMs := birthtimeMs f;
                                     file_writable := file_writable f |}]>
                          (entries d);
                      dir_writable := dir_writable d |})
          else inl EACCES
      | None =>
          if dir_writable d then
            inr (with_dir fsys dir
                   {| entries :=
                        <[name := {| content := data; birthtimeMs := now;
                                     file_writable := true |}]> (entries d);
                      dir_writable := dir_writable d |})
          else inl EACCES
      end
  end.

(** The file at [dir]/[name], if any. *)
Definition lookup_file (fsys : FileSystem) (dir name : string) : option File :=
  match dirs fsys !! dir with
  | None => None
  | Some d => entries d !! name
  end.

End fs.

(** ** The logger's configuration *)

(** The private fields of a [Logger] instance. *)
Record Logger : Type := {
  logPath : string;
  doWrite : bool;
  _level : LEVEL.t;
  _timeFormat : string;
  _format : string
}.

(** [Logger.createInstance()], in a process whose working directory is
    [cwd]: the field initialisers of the class. *)
Definition createInstance (cwd : string) : Logger :=
  {| logPath := path.join cwd "logs";
     doWrite := true;
     _level := LEVEL.info;
     _timeFormat := "D TT";
     _format := "{time} [{level}] {content}" |}.

(** The accessors: [get path()] is [path], [set path(value)] is
    [set_path], and so on for each property. *)
Definition path (this : Logger) : string := logPath this.

Definition set_path (value : string) (this : Logger) : Logger :=
  {| logPath := value; doWrite := doWrite this; _level := _level this;
     _timeFormat := _timeFormat this; _format := _format this |}.

Definition writeFile (this : Logger) : bool := doWrite this.

Definition set_writeFile (value : bool) (this : Logger) : Logger :=
  {| logPath := logPath this; doWrite := value; _level := _level this;
     _timeFormat := _timeFormat this; _format := _format this |}.

Definition level (this : Logger) : LEVEL.t := _level this.

Definition set_level (value : LEVEL.t) (this : Logger) : Logger :=
  {| logPath := logPath this; doWrite := doWrite this; _level := value;
     _timeFormat := _timeFormat this; _format := _format this |}.

Definition timeFormat (this : Logger) : string := _timeFormat this.

Definition set_timeFormat (value : string) (this : Logger) : Logger :=
  {| logPath := logPath this; doWrite := doWrite this; _level := _level this;
     _timeFormat := value; _format := _format this |}.

Definition logFormat (this : Logger) : string := _format this.

Definition set_logFormat (value : string) (this : Logger) : Logger :=
  {| logPath := logPath this; doWrite := doWrite this; _level := _level this;
     _timeFormat := _timeFormat this; _format := value |}.

(** ** The state a logging call runs in *)

Inductive ConsoleStream : Set := StandardOutput | WarningStream | ErrorStream.

Inductive FsRequest : Type :=
| ExistsSync (p : string)
| MkdirSync (p : string)
| StatSync (dir name : string)
| RenameSync (dir old_name new_name : string)
| AppendFileSync (dir name data : string)
| WriteFileSync (dir name data : string).

(** One entry per call that leaves the logger's own code. *)
Inductive Event : Type :=
| Console (stream : ConsoleStream) (message : string)
| InspectCall (v : JsValue)
| ClockRead
| StackCapture
| FsCall (request : FsRequest).

(** The receiver of the call, the file system, the clock (milliseconds
    since the epoch; one logging call runs within one reading of it) and
    the events so far, oldest first. *)
Record State : Type := {
  this : Logger;
  files : fs.FileSystem;
  clock : Z;
  trace : list Event
}.

Inductive Outcome (A : Type) : Type :=
| Returned (a : A) (s : State)
| Thrown (e : JsError) (s : State).
Arguments Returned {A} a s.
Arguments Thrown {A} e s.

(** The state a call ends in, however it ends. *)
Definition final_state {A : Type} (o : Outcome A) : State :=
  match o with Returned _ s => s | Thrown _ s => s end.

(** A computation of the logger: it runs in a state and returns or throws. *)
Definition M (A : Type) : Type := State -> Outcome A.

Definition ret {A : Type} (a : A) : M A := fun s => Returned a s.

Definition bind {A B : Type} (m : M A) (k : A -> M B) : M B :=
  fun s => match m s with
           | Returned a s' => k a s'
           | Thrown e s' => Thrown e s'
           end.

Definition throw {A : Type} (e : JsError) : M A := fun s => Thrown e s.

(** [try { body } catch (error) { handler }] *)
Definition try_catch {A : Type} (body : M A) (handler : JsError -> M A) : M A :=
  fun s => match body s with
           | Returned a s' => Returned a s'
           | Thrown e s' => handler e s'
           end.

Notation "x <- m ;; k" := (bind m (fun x => k))
  (at level 100, m at next level, k at level 200, right associativity).
Notation "m ;;; k" := (bind m (fun _ => k))
  (at level 100, k at level 200, right associativity).

Definition gets {A : Type} (f : State -> A) : M A := fun s => Returned (f s) s.

(** The state with one more event in its trace. *)
Definition add_event (e : Event) (s : State) : State :=
  {| this := this s; files := files s; clock := clock s;
     trace := trace s ++ [e] |}.

(** The state over another file system. *)
Definition put_files (fsys : fs.FileSystem) (s : State) : State :=
  {| this := this s; files := fsys; clock := clock s; trace := trace s |}.

Definition emit (e : Event) : M unit := fun s => Returned tt (add_event e s).

Definition set_files (fsys : fs.FileSystem) : M unit :=
  fun s => Returned tt (put_files fsys s).

(** A call into fs that changes the file system or fails with an errno. *)
Definition fs_update (request : FsRequest) (syscall : string)
    (op : fs.FileSystem -> Z -> Errno + fs.FileSystem) : M unit :=
  emit (FsCall request) ;;;
  fsys <- gets files ;;
  now <- gets clock ;;
  match op fsys now with
  | inl code => throw (SystemError code syscall)
  | inr fsys' => set_files fsys'
  end.

Definition fs_existsSync (p : string) : M bool :=
  emit (FsCall (ExistsSync p)) ;;;
  gets (fun s => fs.existsSync (files s) p).

Definition fs_mkdirSync (p : string) : M unit :=
  fs_update (MkdirSync p) "mkdir" (fun fsys _ => fs.mkdirSync fsys p).

Definition fs_statSync (dir name : string) : M fs.File :=
  emit (FsCall (StatSync dir name)) ;;;
  fsys <- gets files ;;
  match fs.statSync fsys dir name with
  | inl code => throw (SystemError code "stat")
  | inr stat => ret stat
  end.

Definition fs_renameSync (dir old_name new_name : string) : M unit :=
  fs_update (RenameSync dir old_name new_name) "rename"
    (fun fsys _ => fs.renameSync fsys dir old_name new_name).

Definition fs_appendFileSync (dir name data : string) : M unit :=
  fs_update (AppendFileSync dir name data) "open"
    (fun fsys now => fs.appendFileSync fsys now dir name data).

Definition fs_writeFileSync (dir name data : string) : M unit :=
  fs_update (WriteFileSync dir name data) "open"
    (fun fsys now => fs.writeFileSync fsys now dir name data).

(** [Date.now()] and [DateTime.now()]. *)
Definition Date_now : M Z := emit ClockRead ;;; gets clock.

(** [StackTrace.getSync()]: the frames of the running call stack from the
    innermost outwards, the library's own frames left out, so that frame 0
    is the method that calls it.  [stack] is that call stack; every method
    below passes its callee the stack it was given with its own frame, at
    the line of the call, put in front.  The engine captures the innermost
    frames up to a limit, ten unless the program lowers it; the limit is
    taken to leave the three innermost frames in. *)
Definition StackTrace_getSync (stack : list StackFrame) : M (list StackFrame) :=
  emit StackCapture ;;; ret stack.

Definition console_write (stream : ConsoleStream) (message : string) : M unit :=
  emit (Console stream message).

Definition console_log := console_write StandardOutput.
Definition console_warn := console_write WarningStream.
Definition console_error := console_write ErrorStream.

(** The line feed. *)
Definition LF : string := String "010"%char EmptyString.

(** ** The methods of [Logger] *)

Section Methods.
Context `{Platform}.

Definition util_inspect (v : JsValue) : M string :=
  emit (InspectCall v) ;;; ret (inspect v).

Definition checkLevel (level : LEVEL.t) : M bool :=
  self <- gets this ;;
  ret (LEVEL.rank (_level self) <=? LEVEL.rank level).

Definition getTime : M string :=
  now <- Date_now ;;
  self <- gets this ;;
  ret (toFormat now (_timeFormat self)).

(** The body of [for (const arg of args)] in [log]. *)
Fixpoint parse_args (args : list JsValue) (parsed : list JsValue)
  : M (list JsValue) :=
  match args with
  | [] => ret parsed
  | arg :: rest =>
      if String.eqb (typeof arg) "object" then
        text <- util_inspect arg ;;
        parse_args rest (parsed ++ [JString text])
      else parse_args rest (parsed ++ [arg])
  end.

(** [writeLine], called from line 232 of [log]; [stack] is the call stack
    at that call, the frame of [log] first.  The file addressed by
    [path.join(this.logPath, name)] is entry [name] of the directory
    [this.logPath]. *)
Definition writeLine (stack : list StackFrame) (level : LEVEL.t) (line : string)
  : M unit :=
  self <- gets this ;;
  if negb (doWrite self) then ret tt else
  there <- fs_existsSync (logPath self) ;;
  (if negb there then fs_mkdirSync (logPath self) else ret tt) ;;;
  let output := "latest.log" in
  time <- getTime ;;
  let message :=
    JsString.replace
      (JsString.replace
         (JsString.replace (_format self) "{time}" time)
         "{level}" (LEVEL_TAG level))
      "{content}" line in
  trace <- StackTrace_getSync (at_ "Logger.writeLine" 278 30 :: stack) ;;
  message <-
    (if 3 <=? Z.of_nat (length trace) then
       match trace !! 2%nat with
       | Some frame =>
           ret (JsString.replace
                  (JsString.replace
                     (JsString.replace
                        (JsString.replace message
                           "{fileName}" (getFileName frame))
                        "{lineNumber}" (number_toString (getLineNumber frame)))
                     "{functionName}" (getFunctionName frame))
                  "{columnNumber}" (number_toString (getColumnNumber frame)))
       | None => throw (TypeError "Cannot read properties of undefined")
       end
     else ret message) ;;
  try_catch
    (stat <- fs_statSync (logPath self) output ;;
     now <- Date_now ;;
     (if 86400000 <=? now - fs.birthtimeMs stat then
        let newName :=
          "output-" +:+ toLocaleDateString (fs.birthtimeMs stat) "en-CA"
          +:+ ".log" in
        fs_renameSync (logPath self) output newName
      else ret tt) ;;;
     fs_appendFileSync (logPath self) output (message +:+ LF))
    (fun error =>
       fs_writeFileSync (logPath self) output (message +:+ LF)).

(** [log], called from a per-level operation; [stack] is the call stack
    at that call, the frame of the per-level operation first. *)
Definition log (stack : list StackFrame) (level : LEVEL.t) (args : list JsValue)
  : M unit :=
  pass <- checkLevel level ;;
  if negb pass then ret tt else
  parsed <- parse_args args [] ;;
  match join parsed " " with
  | inl e => throw e
  | inr line =>
      writeLine (at_ "Logger.log" 232 10 :: stack) level line ;;;
      self <- gets this ;;
      time <- getTime ;;
      let message :=
        JsString.replace
          (JsString.replace
             (JsString.replace (_format self) "{time}" time)
             "{level}" (LEVEL_COLOR level))
          "{content}" line in
      trace <- StackTrace_getSync (at_ "Logger.log" 239 30 :: stack) ;;
      message <-
        (if 3 <=? Z.of_nat (length trace) then
           match trace !! 2%nat with
           | Some frame =>
               ret (JsString.replace
                      (JsString.replace
                         (JsString.replace
                            (JsString.replace message
                               "{fileName}" (getFileName frame))
                            "{lineNumber}"
                            (number_toString (getLineNumber frame)))
                         "{functionName}" (getFunctionName frame))
                      "{columnNumber}"
                      (number_toString (getColumnNumber frame)))
           | None => throw (TypeError "Cannot read properties of undefined")
           end
         else ret message) ;;
      match level with
      | LEVEL.error => console_error message
      | LEVEL.warning => console_warn message
      | _ => console_log message
      end
  end.

(** The per-level operations; [stack] is the caller's call stack, the
    frame of the call site first. *)
Definition debug (stack : list StackFrame) (args : list JsValue) : M unit :=
  log (at_ "Logger.debug" 164 10 :: stack) LEVEL.debug args.

Definition info (stack : list StackFrame) (args : list JsValue) : M unit :=
  log (at_ "Logger.info" 175 10 :: stack) LEVEL.info args.

Definition success (stack : list StackFrame) (args : list JsValue) : M unit :=
  log (at_ "Logger.success" 186 10 :: stack) LEVEL.success args.

Definition warning (stack : list StackFrame) (args : list JsValue) : M unit :=
  log (at_ "Logger.warning" 197 10 :: stack) LEVEL.warning args.

Definition error (stack : list StackFrame) (args : list JsValue) : M unit :=
  log (at_ "Logger.error" 208 10 :: stack) LEVEL.error args.

Definition notice (stack : list StackFrame) (args : list JsValue) : M unit :=
  log (at_ "Logger.notice" 219 10 :: stack) LEVEL.notice args.

(** The per-level operation of a level. *)
Definition operation (l : LEVEL.t) : list StackFrame -> list JsValue -> M unit :=
  match l with
  | LEVEL.debug => debug
  | LEVEL.info => info
  | LEVEL.success => success
  | LEVEL.warning => warning
  | LEVEL.error => error
  | LEVEL.notice => notice
  end.

End Methods.

(** ** Notions the statements are written in *)

(** The three replacements every line starts with. *)
Definition fill_template (format time tag content : string) : string :=
  JsString.replace
    (JsString.replace (JsString.replace format "{time}" time) "{level}" tag)
    "{content}" content.

(** The four replacements made from a frame. *)
Definition fill_location (message : string) (frame : StackFrame) : string :=
  JsString.replace
    (JsString.replace
       (JsString.replace
          (JsString.replace message "{fileName}" (getFileName frame))
          "{lineNumber}" (number_toString (getLineNumber frame)))
       "{functionName}" (getFunctionName frame))
    "{columnNumber}" (number_toString (getColumnNumber frame)).

(** The message after the location step, for a captured trace: the frame
    at index 2 is used when there are three frames or more. *)
Definition with_location (message : string) (trace : list StackFrame) : string :=
  match trace with
  | _ :: _ :: frame :: _ => fill_location message frame
  | _ => message
  end.

(** The frame of the per-level operation of a level, at its call of [log]. *)
Definition op_frame (l : LEVEL.t) : StackFrame :=
  match l with
  | LEVEL.debug => at_ "Logger.debug" 164 10
  | LEVEL.info => at_ "Logger.info" 175 10
  | LEVEL.success => at_ "Logger.success" 186 10
  | LEVEL.warning => at_ "Logger.warning" 197 10
  | LEVEL.error => at_ "Logger.error" 208 10
  | LEVEL.notice => at_ "Logger.notice" 219 10
  end.

(** The stream a level's console line goes to. *)
Definition severity_stream (l : LEVEL.t) : ConsoleStream :=
  match l with
  | LEVEL.error => ErrorStream
  | LEVEL.warning => WarningStream
  | _ => StandardOutput
  end.

Definition add_events (evs : list Event) (s : State) : State :=
  {| this := this s; files := files s; clock := clock s;
     trace := trace s ++ evs |}.

(** The console lines of a trace, in order. *)
Definition console_output (evs : list Event) : list (ConsoleStream * string) :=
  omap (fun e => match e with
                 | Console stream message => Some (stream, message)
                 | _ => None
                 end) evs.

(** The texts handed to appendFileSync and writeFileSync, in order. *)
Definition written_lines (evs : list Event) : list string :=
  omap (fun e => match e with
                 | FsCall (AppendFileSync _ _ data) => Some data
                 | FsCall (WriteFileSync _ _ data) => Some data
                 | _ => None
                 end) evs.

Definition is_console (e : Event) : bool :=
  match e with Console _ _ => true | _ => false end.

Definition is_symbol (v : JsValue) : bool :=
  match v with JSymbol _ => true | _ => false end.

Definition is_object (v : JsValue) : bool := String.eqb (typeof v) "object".

(** The calls of util.inspect that rendering [args] makes. *)
Fixpoint inspect_calls (args : list JsValue) : list Event :=
  match args with
  | [] => []
  | v :: rest =>
      if is_object v then InspectCall v :: inspect_calls rest
      else inspect_calls rest
  end.

(** [s'] comes after [s]: same receiver, same clock, and a trace grown by
    events that all satisfy [P]. *)
Definition after (P : Event -> Prop) (s s' : State) : Prop :=
  this s' = this s /\ clock s' = clock s /\
  exists evs, trace s' = (trace s ++ evs)%list /\ Forall P evs.

(** Every run of [m] ends in a state that comes after the one it began in. *)
Definition keeps {A : Type} (P : Event -> Prop) (m : M A) : Prop :=
  forall s, after P s (final_state (m s)).

Section Notions.
Context `{Platform}.

(** The line [writeLine] writes; [stack] is [writeLine]'s call stack. *)
Definition file_line (self : Logger) (now : Z) (l : LEVEL.t) (content : string)
    (stack : list StackFrame) : string :=
  with_location
    (fill_template (_format self) (toFormat now (_timeFormat self))
       (LEVEL_TAG l) content)
    (at_ "Logger.writeLine" 278 30 :: stack).

(** The line [log] prints; [stack] is [log]'s call stack. *)
Definition console_line (self : Logger) (now : Z) (l : LEVEL.t) (content : string)
    (stack : list StackFrame) : string :=
  with_location
    (fill_template (_format self) (toFormat now (_timeFormat self))
       (LEVEL_COLOR l) content)
    (at_ "Logger.log" 239 30 :: stack).

(** Line 271 of [writeLine]. *)
Definition prepare (dir : string) : M unit :=
  there <- fs_existsSync dir ;;
  if negb there then fs_mkdirSync dir else ret tt.

(** Lines 287 to 298 of [writeLine]. *)
Definition rotating_append (dir message : string) : M unit :=
  try_catch
    (stat <- fs_statSync dir "latest.log" ;;
     now <- Date_now ;;
     (if 86400000 <=? now - fs.birthtimeMs stat then
        fs_renameSync dir "latest.log"
          ("output-" +:+ toLocaleDateString (fs.birthtimeMs stat) "en-CA"
           +:+ ".log")
      else ret tt) ;;;
     fs_appendFileSync dir "latest.log" (message +:+ LF))
    (fun _ => fs_writeFileSync dir "latest.log" (message +:+ LF)).

(** The name a rotated file gets. *)
Definition archive_name (f : fs.File) : string :=
  "output-" +:+ toLocaleDateString (fs.birthtimeMs f) "en-CA" +:+ ".log".

(** What [parse_args] pushes for an argument. *)
Definition boxed (v : JsValue) : JsValue :=
  if is_object v then JString (inspect v) else v.

(** The piece of the content string an argument contributes (a Symbol
    contributes none: the join throws on it). *)
Definition rendered (v : JsValue) : string :=
  match v with
  | JNull | JArray _ | JObject _ => inspect v
  | JUndefined => EmptyString
  | JBoolean true => "true"
  | JBoolean false => "false"
  | JNumber n | JBigInt n => number_toString n
  | JString s => s
  | JFunction source => source
  | JSymbol _ => EmptyString
  end.



End Notions.

(** ** The specification's words, to compare the code with *)

(** Design note 9 of the specification asks for a single pass over the
    format string that replaces each token where it stands, so that text
    put in by one token is never read again. *)
Fixpoint token_at (tokens : list (string * string)) (s : string)
  : option (string * string) :=
  match tokens with
  | [] => None
  | (token, value) :: rest =>
      if String.prefix token s then Some (token, value) else token_at rest s
  end.

Fixpoint single_pass_from (tokens : list (string * string)) (skip : nat)
    (s : string) : string :=
  match s with
  | EmptyString => EmptyString
  | String c s' =>
      match skip with
      | S k => single_pass_from tokens k s'
      | O =>
          match token_at tokens s with
          | Some (token, value) =>
              value +:+ single_pass_from tokens (String.length token - 1) s'
          | None => String c (single_pass_from tokens O s')
          end
      end
  end.

Definition single_pass (tokens : list (string * string)) (format : string)
  : string :=
  single_pass_from tokens O format.

(** The tokens of a record and what each stands for. *)
Definition record_tokens (time tag content : string) (frame : option StackFrame)
  : list (string * string) :=
  [("{time}", time); ("{level}", tag); ("{content}", content)] ++
  match frame with
  | Some f =>
      [("{fileName}", getFileName f);
       ("{lineNumber}", number_toString (getLineNumber f));
       ("{functionName}", getFunctionName f);
       ("{columnNumber}", number_toString (getColumnNumber f))]
  | None => []
  end.

(** Section 4.1, step 2, of the specification: a non-primitive argument
    is rendered by structural inspection, a primitive one by its natural
    string form (the string [String(value)] gives), and the pieces are
    joined with single spaces. *)
Definition spec_rendered `{Platform} (v : JsValue) : string :=
  match v with
  | JUndefined => "undefined"
  | JNull => "null"
  | JBoolean true => "true"
  | JBoolean false => "false"
  | JNumber n | JBigInt n => number_toString n
  | JString s => s
  | JSymbol description => "Symbol(" +:+ description +:+ ")"
  | JFunction _ | JArray _ | JObject _ => inspect v
  end.

Definition spec_content `{Platform} (args : list JsValue) : string :=
  String.concat " " (map spec_rendered args).

(** ** Plain texts *)

(** Does the character occur in the text? *)
Fixpoint has_char (c : ascii) (s : string) : bool :=
  match s with
  | EmptyString => false
  | String d s' => Ascii.eqb c d || has_char c s'
  end.

(** A text with no dollar sign and no opening brace: [replace] inserts it
    as it is, and no token starts in it. *)
Definition plain (s : string) : bool :=
  negb (has_char "$" s) && negb (has_char "{" s).

(** The seven tokens of a line format. *)
Definition tokens : list string :=
  ["{time}"; "{level}"; "{content}"; "{fileName}"; "{lineNumber}";
   "{functionName}"; "{columnNumber}"].

(** The state a while later. *)
Definition later (delta : Z) (s : State) : State :=
  {| this := this s; files := files s; clock := clock s + delta;
     trace := trace s |}.

Definition is_inspection (e : Event) : bool :=
  match e with InspectCall _ => true | _ => false end.

(** ** A platform to run examples on *)

Module Demo.

(** The civil date (year, month, day) of a day count since 1970-01-01. *)
Definition civil_from_days (days : Z) : Z * Z * Z :=
  let z := days + 719468 in
  let era := z / 146097 in
  let doe := z - era * 146097 in
  let yoe := (doe - doe / 1460 + doe / 36524 - doe / 146096) / 365 in
  let doy := doe - (365 * yoe + yoe / 4 - yoe / 100) in
  let mp := (5 * doy + 2) / 153 in
  let d := doy - (153 * mp + 2) / 5 + 1 in
  let m := if mp <? 10 then mp + 3 else mp - 9 in
  (yoe + era * 400 + (if m <=? 2 then 1 else 0), m, d).

Definition pad2 (n : Z) : string :=
  if n <? 10 then "0" +:+ number_toString n else number_toString n.

(** The en-CA short date, in UTC: YYYY-MM-DD. *)
Definition date_en_CA (ms : Z) : string :=
  let '(y, m, d) := civil_from_days (ms / 86400000) in
  number_toString y +:+ "-" +:+ pad2 m +:+ "-" +:+ pad2 d.

(** The en-US date and 24-hour time that the format [D TT] prints, in UTC. *)
Definition date_time_D_TT (ms : Z) : string :=
  let '(y, m, d) := civil_from_days (ms / 86400000) in
  let secs := (ms mod 86400000) / 1000 in
  number_toString m +:+ "/" +:+ number_toString d +:+ "/" +:+ number_toString y
  +:+ " " +:+ pad2 (secs / 3600) +:+ ":" +:+ pad2 (secs mod 3600 / 60)
  +:+ ":" +:+ pad2 (secs mod 60).

Definition ESC : string := String "027"%char EmptyString.

(** The escape sequences chalk emits on a colour terminal. *)
Definition ansi (style : ChalkStyle) (text : string) : string :=
  match style with
  | gray => ESC +:+ "[90m" +:+ text +:+ ESC +:+ "[39m"
  | blue => ESC +:+ "[34m" +:+ text +:+ ESC +:+ "[39m"
  | greenBright => ESC +:+ "[92m" +:+ text +:+ ESC +:+ "[39m"
  | yellowBright => ESC +:+ "[93m" +:+ text +:+ ESC +:+ "[39m"
  | redBright => ESC +:+ "[91m" +:+ text +:+ ESC +:+ "[39m"
  | bgRedBright => ESC +:+ "[101m" +:+ text +:+ ESC +:+ "[49m"
  end.

(** A one-line rendering in the manner of util.inspect. *)
Fixpoint show (v : JsValue) : string :=
  match v with
  | JUndefined => "undefined"
  | JNull => "null"
  | JBoolean true => "true"
  | JBoolean false => "false"
  | JNumber n => number_toString n
  | JBigInt n => number_toString n +:+ "n"
  | JString s => "'" +:+ s +:+ "'"
  | JSymbol d => "Symbol(" +:+ d +:+ ")"
  | JFunction _ => "[Function (anonymous)]"
  | JArray elements =>
      "[ " +:+
      (fix items (l : list JsValue) : string :=
         match l with
         | [] => EmptyString
         | [x] => show x
         | x :: rest => show x +:+ ", " +:+ items rest
         end) elements +:+ " ]"
  | JObject properties =>
      "{ " +:+
      (fix items (l : list (string * JsValue)) : string :=
         match l with
         | [] => EmptyString
         | [(k, x)] => k +:+ ": " +:+ show x
         | (k, x) :: rest => k +:+ ": " +:+ show x +:+ ", " +:+ items rest
         end) properties +:+ " }"
  end.

#[export] Instance platform : Platform := {|
  inspect := show;
  toFormat := fun ms format =>
    if String.eqb format "D TT" then date_time_D_TT ms else format;
  toLocaleDateString := fun ms _ => date_en_CA ms;
  chalk := ansi
|}.

(** A file system whose one log directory, at [dir], holds [logs]. *)
Definition disk (dir : string) (logs : gmap string fs.File) (writable : bool)
  : fs.FileSystem :=
  {| fs.dirs := {[ dir := {| fs.entries := logs; fs.dir_writable := writable |} ]};
     fs.mkdir_error := fun _ => None |}.

(** 2026-11-01 12:00:00 UTC. *)
Definition noon : Z := 1793534400000.

Definition app_frame : StackFrame :=
  {| getFileName := "/srv/app/server.js"; getLineNumber := 42;
     getFunctionName := "handleRequest"; getColumnNumber := 12 |}.

Definition user_stack : list StackFrame :=
  [ app_frame;
    {| getFileName := "/srv/app/server.js"; getLineNumber := 90;
       getFunctionName := "main"; getColumnNumber := 3 |} ].

Definition start (logger : Logger) (fsys : fs.FileSystem) : State :=
  {| this := logger; files := fsys; clock := noon; trace := [] |}.

Definition logger : Logger := createInstance "/srv/app".

Definition logs_dir : string := "/srv/app/logs".

(** A log file created a day and a millisecond before [noon]. *)
Definition old_log : fs.File :=
  {| fs.content := "10/31/2026 11:59:59 [ info  ] started" +:+ LF;
     fs.birthtimeMs := noon - 86400001;
     fs.file_writable := true |}.

(** A log file created a second before [noon]. *)
Definition young_log : fs.File :=
  {| fs.content := "11/1/2026 11:59:59 [ info  ] started" +:+ LF;
     fs.birthtimeMs := noon - 1000;
     fs.file_writable := true |}.

Definition locked_log : fs.File :=
  {| fs.content := fs.content young_log;
     fs.birthtimeMs := fs.birthtimeMs young_log;
     fs.file_writable := false |}.

Definition fresh : State := start logger (disk logs_dir ∅ true).

Definition aged : State :=
  start logger (disk logs_dir {[ "latest.log" := old_log ]} true).

Definition recent : State :=
  start logger (disk logs_dir {[ "latest.log" := young_log ]} true).

(** The old log in a directory the process may not write. *)
Definition aged_read_only : State :=
  start logger (disk logs_dir {[ "latest.log" := old_log ]} false).

(** The recent log, itself not writable. *)
Definition recent_locked : State :=
  start logger (disk logs_dir {[ "latest.log" := locked_log ]} true).

(** The stack [writeLine] is called with when [handleRequest] calls
    [logger.info]. *)
Definition writeLine_stack : list StackFrame :=
  at_ "Logger.log" 232 10 :: op_frame LEVEL.info :: user_stack.

(** A logger that prints where the call came from. *)
Definition locating : Logger :=
  set_logFormat "{fileName}:{lineNumber} ({functionName}) {content}" logger.

(** A logger that writes no file and prints the content alone. *)
Definition bare : Logger :=
  set_writeFile false (set_logFormat "{content}" logger).

(** No log directory, and no parent to make it in. *)
Definition no_parent : State :=
  start logger {| fs.dirs := ∅; fs.mkdir_error := fun _ => Some ENOENT |}.

(** No log directory yet, in a parent that admits making it. *)
Definition no_directory : State :=
  start logger {| fs.dirs := ∅; fs.mkdir_error := fun _ => None |}.

(** A logger whose template holds no token. *)
Definition marking : Logger := set_logFormat "---- mark ----" logger.

(** A logger whose template holds the content token twice. *)
Definition doubled : Logger := set_logFormat "{content} | {content}" logger.

End Demo.

(** ** How computations run *)

Section Running.
Context `{Platform}.

Lemma bind_run {A B : Type} (m : M A) (k : A -> M B) (s : State) :
  bind m k s =
  match m s with Returned a s' => k a s' | Thrown e s' => Thrown e s' end.
Proof. reflexivity. Qed.

Lemma bind_assoc {A B C : Type} (m : M A) (f : A -> M B) (g : B -> M C) s :
  bind (bind m f) g s = bind m (fun a => bind (f a) g) s.
Proof. unfold bind. destruct (m s); reflexivity. Qed.

Lemma bind_ext {A B : Type} (m : M A) (k k' : A -> M B) s :
  (forall a s', k a s' = k' a s') -> bind m k s = bind m k' s.
Proof. intros E. unfold bind. destruct (m s); [apply E | reflexivity]. Qed.

Lemma three_frames (a b c : StackFrame) (rest : list StackFrame) :
  (3 <=? Z.of_nat (length (a :: b :: c :: rest))) = true.
Proof. apply Z.leb_le. simpl length. lia. Qed.

(** The location step never throws: index 2 exists whenever the length
    test passes. *)
Lemma locate_run (message : string) (trace : list StackFrame) (s : State) :
  (if 3 <=? Z.of_nat (length trace) then
     match trace !! 2%nat with
     | Some frame =>
         ret (JsString.replace
                (JsString.replace
                   (JsString.replace
                      (JsString.replace message
                         "{fileName}" (getFileName frame))
                      "{lineNumber}" (number_toString (getLineNumber frame)))
                   "{functionName}" (getFunctionName frame))
                "{columnNumber}" (number_toString (getColumnNumber frame)))
     | None => throw (TypeError "Cannot read properties of undefined")
     end
   else ret message) s = Returned (with_location message trace) s.
Proof.
  destruct trace as [|a [|b [|c rest]]]; try reflexivity.
  rewrite three_frames. reflexivity.
Qed.

Lemma getTime_run (s : State) :
  getTime s =
  Returned (toFormat (clock s) (_timeFormat (this s))) (add_event ClockRead s).
Proof. reflexivity. Qed.

Lemma fs_update_run request syscall op (s : State) :
  fs_update request syscall op s =
  match op (files s) (clock s) with
  | inl code => Thrown (SystemError code syscall) (add_event (FsCall request) s)
  | inr fsys => Returned tt (put_files fsys (add_event (FsCall request) s))
  end.
Proof.
  unfold fs_update, bind, emit, gets. simpl.
  destruct (op (files s) (clock s)); reflexivity.
Qed.

Lemma fs_statSync_run dir name (s : State) :
  fs_statSync dir name s =
  match fs.statSync (files s) dir name with
  | inl code =>
      Thrown (SystemError code "stat") (add_event (FsCall (StatSync dir name)) s)
  | inr f => Returned f (add_event (FsCall (StatSync dir name)) s)
  end.
Proof.
  unfold fs_statSync, bind, emit, gets. simpl.
  destruct (fs.statSync (files s) dir name); reflexivity.
Qed.

(** [writeLine] when writing is switched off. *)
Lemma writeLine_off stack l line s :
  doWrite (this s) = false -> writeLine stack l line s = Returned tt s.
Proof. intros Hw. unfold writeLine, bind, gets. rewrite Hw. reflexivity. Qed.

(** [writeLine] when writing is on: the directory is prepared, the line is
    formatted, and the rotating append runs on it. *)
Lemma writeLine_on stack l line s :
  doWrite (this s) = true ->
  writeLine stack l line s =
  match prepare (logPath (this s)) s with
  | Thrown e s1 => Thrown e s1
  | Returned _ s1 =>
      rotating_append (logPath (this s))
        (with_location
           (fill_template (_format (this s))
              (toFormat (clock s1) (_timeFormat (this s1))) (LEVEL_TAG l) line)
           (at_ "Logger.writeLine" 278 30 :: stack))
        (add_event StackCapture (add_event ClockRead s1))
  end.
Proof.
  intros Hw. unfold writeLine. rewrite bind_run. unfold gets at 1.
  rewrite Hw. cbn [negb].
  rewrite <- (bind_assoc (fs_existsSync (logPath (this s)))).
  fold (prepare (logPath (this s))).
  rewrite bind_run. destruct (prepare (logPath (this s)) s) as [[] s1|e s1]; [|reflexivity].
  rewrite bind_run, getTime_run.
  rewrite bind_run. unfold StackTrace_getSync at 1. rewrite bind_run.
  unfold emit at 1, ret at 1.
  rewrite bind_run.
  rewrite (locate_run _ (at_ "Logger.writeLine" 278 30 :: stack)).
  reflexivity.
Qed.

End Running.

Section Appending.
Context `{Platform}.

Lemma prepare_run dir (s : State) :
  prepare dir s =
  match fs.dirs (files s) !! dir with
  | Some _ => Returned tt (add_event (FsCall (ExistsSync dir)) s)
  | None =>
      match fs.mkdir_error (files s) dir with
      | Some code =>
          Thrown (SystemError code "mkdir")
            (add_event (FsCall (MkdirSync dir))
               (add_event (FsCall (ExistsSync dir)) s))
      | None =>
          Returned tt
            (put_files
               (fs.with_dir (files s) dir
                  {| fs.entries := ∅; fs.dir_writable := true |})
               (add_event (FsCall (MkdirSync dir))
                  (add_event (FsCall (ExistsSync dir)) s)))
      end
  end.
Proof.
  unfold prepare, fs_existsSync, fs_mkdirSync.
  rewrite bind_run. unfold bind at 1, emit at 1, gets at 1.
  unfold fs.existsSync. cbn [files add_event].
  destruct (fs.dirs (files s) !! dir) as [d|] eqn:Hd; [reflexivity|].
  cbn [negb]. rewrite fs_update_run. unfold fs.mkdirSync.
  cbn [files add_event]. rewrite Hd.
  destruct (fs.mkdir_error (files s) dir); reflexivity.
Qed.

Lemma archive_is_not_latest (f : fs.File) : archive_name f <> "latest.log".
Proof. unfold archive_name. cbn. discriminate. Qed.

Lemma lookup_file_with_dir fsys dir d name :
  fs.lookup_file (fs.with_dir fsys dir d) dir name = fs.entries d !! name.
Proof.
  unfold fs.lookup_file, fs.with_dir. cbn [fs.dirs].
  rewrite lookup_insert_eq. reflexivity.
Qed.

(** No [latest.log] yet: statSync throws, the handler creates the file. *)
Lemma rotating_append_absent dir message (s : State) d :
  fs.dirs (files s) !! dir = Some d ->
  fs.entries d !! "latest.log" = None ->
  rotating_append dir message s =
  let s1 := add_event (FsCall (WriteFileSync dir "latest.log" (message +:+ LF)))
              (add_event (FsCall (StatSync dir "latest.log")) s) in
  if fs.dir_writable d then
    Returned tt
      (put_files
         (fs.with_dir (files s) dir
            {| fs.entries :=
                 <["latest.log" := {| fs.content := message +:+ LF;
                                      fs.birthtimeMs := clock s;
                                      fs.file_writable := true |}]>
                   (fs.entries d);
               fs.dir_writable := fs.dir_writable d |}) s1)
  else Thrown (SystemError EACCES "open") s1.
Proof.
  intros Hd Hf. unfold rotating_append, try_catch.
  rewrite bind_run, fs_statSync_run. unfold fs.statSync. rewrite Hd, Hf.
  unfold fs_writeFileSync. rewrite fs_update_run. unfold fs.writeFileSync.
  cbn [files add_event clock]. rewrite Hd, Hf.
  destruct (fs.dir_writable d); reflexivity.
Qed.

(** A [latest.log] younger than a day: the line is appended; when the
    file may not be written the handler's write fails the same way. *)
Lemma rotating_append_young dir message (s : State) d f :
  fs.dirs (files s) !! dir = Some d ->
  fs.entries d !! "latest.log" = Some f ->
  clock s - fs.birthtimeMs f < 86400000 ->
  rotating_append dir message s =
  let s1 := add_event (FsCall (AppendFileSync dir "latest.log" (message +:+ LF)))
              (add_event ClockRead
                 (add_event (FsCall (StatSync dir "latest.log")) s)) in
  if fs.file_writable f then
    Returned tt
      (put_files
         (fs.with_dir (files s) dir
            {| fs.entries :=
                 <["latest.log" := {| fs.content := (fs.content f +:+ message +:+ LF);
                                      fs.birthtimeMs := fs.birthtimeMs f;
                                      fs.file_writable := fs.file_writable f |}]>
                   (fs.entries d);
               fs.dir_writable := fs.dir_writable d |}) s1)
  else
    Thrown (SystemError EACCES "open")
      (add_event (FsCall (WriteFileSync dir "latest.log" (message +:+ LF))) s1).
Proof.
  intros Hd Hf Hage. unfold rotating_append, try_catch.
  rewrite bind_run, fs_statSync_run. unfold fs.statSync. rewrite Hd, Hf.
  rewrite bind_run. unfold Date_now at 1, bind at 1, emit at 1, gets at 1.
  cbn [clock add_event].
  assert ((86400000 <=? clock s - fs.birthtimeMs f) = false) as ->
    by (apply Z.leb_gt; exact Hage).
  rewrite bind_run. unfold ret at 1.
  unfold fs_appendFileSync. rewrite fs_update_run. unfold fs.appendFileSync.
  cbn [files add_event clock]. rewrite Hd, Hf.
  destruct (fs.file_writable f) eqn:Hw; [reflexivity|].
  unfold fs_writeFileSync. rewrite fs_update_run. unfold fs.writeFileSync.
  cbn [files add_event clock]. rewrite Hd, Hf, Hw. reflexivity.
Qed.

(** A [latest.log] a day old or older: it is renamed and a new file is
    started; when the directory may not be written the rename throws and
    the handler overwrites the old file in place. *)
Lemma rotating_append_old dir message (s : State) d f :
  fs.dirs (files s) !! dir = Some d ->
  fs.entries d !! "latest.log" = Some f ->
  86400000 <= clock s - fs.birthtimeMs f ->
  rotating_append dir message s =
  let s1 := add_event (FsCall (RenameSync dir "latest.log" (archive_name f)))
              (add_event ClockRead
                 (add_event (FsCall (StatSync dir "latest.log")) s)) in
  if fs.dir_writable d then
    Returned tt
      (put_files
         (fs.with_dir
            (fs.with_dir (files s) dir
               {| fs.entries :=
                    <[archive_name f := f]> (delete "latest.log" (fs.entries d));
                  fs.dir_writable := fs.dir_writable d |})
            dir
            {| fs.entries :=
                 <["latest.log" := {| fs.content := message +:+ LF;
                                      fs.birthtimeMs := clock s;
                                      fs.file_writable := true |}]>
                   (<[archive_name f := f]> (delete "latest.log" (fs.entries d)));
               fs.dir_writable := fs.dir_writable d |})
         (add_event (FsCall (AppendFileSync dir "latest.log" (message +:+ LF)))
            (put_files
               (fs.with_dir (files s) dir
                  {| fs.entries :=
                       <[archive_name f := f]> (delete "latest.log" (fs.entries d));
                     fs.dir_writable := fs.dir_writable d |}) s1)))
  else
    let s2 := add_event (FsCall (WriteFileSync dir "latest.log" (message +:+ LF)))
                s1 in
    if fs.file_writable f then
      Returned tt
        (put_files
           (fs.with_dir (files s) dir
              {| fs.entries :=
                   <["latest.log" := {| fs.content := message +:+ LF;
                                        fs.birthtimeMs := fs.birthtimeMs f;
                                        fs.file_writable := fs.file_writable f |}]>
                     (fs.entries d);
                 fs.dir_writable := fs.dir_writable d |}) s2)
    else Thrown (SystemError EACCES "open") s2.
Proof.
  intros Hd Hf Hage. unfold rotating_append, try_catch.
  rewrite bind_run, fs_statSync_run. unfold fs.statSync. rewrite Hd, Hf.
  rewrite bind_run. unfold Date_now at 1, bind at 1, emit at 1, gets at 1.
  cbn [clock add_event].
  assert ((86400000 <=? clock s - fs.birthtimeMs f) = true) as ->
    by (apply Z.leb_le; exact Hage).
  rewrite bind_run. unfold fs_renameSync. rewrite fs_update_run.
  unfold fs.renameSync. cbn [files add_event clock]. rewrite Hd, Hf.
  fold (archive_name f).
  destruct (fs.dir_writable d) eqn:Hw.
  - unfold fs_appendFileSync. rewrite fs_update_run. unfold fs.appendFileSync.
    cbn [files add_event put_files clock fs.with_dir fs.dirs].
    rewrite lookup_insert_eq. cbn [fs.entries fs.dir_writable].
    rewrite lookup_insert_ne by apply archive_is_not_latest.
    rewrite lookup_delete_eq. reflexivity.
  - unfold fs_writeFileSync. rewrite fs_update_run. unfold fs.writeFileSync.
    cbn [files add_event clock]. rewrite Hd, Hf.
    destruct (fs.file_writable f) eqn:Hw'; rewrite ?Hw; reflexivity.
Qed.

End Appending.

(** ** What a call leaves untouched *)

Section Keeping.
Context `{Platform}.
Variable P : Event -> Prop.

Lemma after_refl s : after P s s.
Proof.
  repeat split. exists []. split; [symmetry; apply app_nil_r | constructor].
Qed.

Lemma after_trans s1 s2 s3 : after P s1 s2 -> after P s2 s3 -> after P s1 s3.
Proof.
  intros (Ht & Hc & evs & Hevs & HP) (Ht' & Hc' & evs' & Hevs' & HP').
  split; [congruence|]. split; [congruence|].
  exists (evs ++ evs')%list. split.
  - rewrite Hevs', Hevs. symmetry. apply app_assoc.
  - apply Forall_app. split; assumption.
Qed.

Lemma keeps_ret {A : Type} (a : A) : keeps P (ret a).
Proof. intros s. apply after_refl. Qed.

Lemma keeps_throw {A : Type} (e : JsError) : keeps P (@throw A e).
Proof. intros s. apply after_refl. Qed.

Lemma keeps_gets {A : Type} (f : State -> A) : keeps P (gets f).
Proof. intros s. apply after_refl. Qed.

Lemma keeps_emit (e : Event) : P e -> keeps P (emit e).
Proof.
  intros He s. repeat split. exists [e]. split; [reflexivity|].
  constructor; [exact He | constructor].
Qed.

Lemma keeps_set_files fsys : keeps P (set_files fsys).
Proof.
  intros s. repeat split. exists []. split; [symmetry; apply app_nil_r | constructor].
Qed.

Lemma keeps_bind {A B : Type} (m : M A) (k : A -> M B) :
  keeps P m -> (forall a, keeps P (k a)) -> keeps P (bind m k).
Proof.
  intros Hm Hk s. unfold bind. specialize (Hm s).
  destruct (m s) as [a s'|e s']; cbn [final_state] in *.
  - apply (after_trans _ s'); [exact Hm | apply Hk].
  - exact Hm.
Qed.

Lemma keeps_try_catch {A : Type} (body : M A) (handler : JsError -> M A) :
  keeps P body -> (forall e, keeps P (handler e)) -> keeps P (try_catch body handler).
Proof.
  intros Hb Hh s. unfold try_catch. specialize (Hb s).
  destruct (body s) as [a s'|e s']; cbn [final_state] in *.
  - exact Hb.
  - apply (after_trans _ s'); [exact Hb | apply Hh].
Qed.

Lemma keeps_fs_update request syscall op :
  P (FsCall request) -> keeps P (fs_update request syscall op).
Proof.
  intros HP. unfold fs_update.
  apply keeps_bind; [apply keeps_emit; exact HP | intros _].
  apply keeps_bind; [apply keeps_gets | intros fsys].
  apply keeps_bind; [apply keeps_gets | intros now].
  destruct (op fsys now); [apply keeps_throw | apply keeps_set_files].
Qed.

Lemma keeps_getTime : P ClockRead -> keeps P getTime.
Proof.
  intros HP. unfold getTime, Date_now.
  apply keeps_bind; [|intros now; apply keeps_bind; [apply keeps_gets | intros; apply keeps_ret]].
  apply keeps_bind; [apply keeps_emit; exact HP | intros; apply keeps_gets].
Qed.

Lemma keeps_getSync stack : P StackCapture -> keeps P (StackTrace_getSync stack).
Proof.
  intros HP. unfold StackTrace_getSync.
  apply keeps_bind; [apply keeps_emit; exact HP | intros; apply keeps_ret].
Qed.

Lemma keeps_parse_args args :
  (forall v, P (InspectCall v)) -> forall parsed, keeps P (parse_args args parsed).
Proof.
  intros HP. induction args as [|arg rest IH]; intros parsed; cbn [parse_args].
  - apply keeps_ret.
  - destruct (String.eqb (typeof arg) "object"); [|apply IH].
    apply keeps_bind; [|intros; apply IH].
    unfold util_inspect.
    apply keeps_bind; [apply keeps_emit, HP | intros; apply keeps_ret].
Qed.

(** [writeLine] makes no call but to the clock, the stack and fs. *)
Lemma keeps_writeLine stack l line :
  P ClockRead -> P StackCapture -> (forall r, P (FsCall r)) ->
  keeps P (writeLine stack l line).
Proof.
  intros Hc Hs Hf. unfold writeLine.
  apply keeps_bind; [apply keeps_gets | intros self].
  destruct (negb (doWrite self)); [apply keeps_ret|].
  apply keeps_bind; [|intros there].
  { unfold fs_existsSync.
    apply keeps_bind; [apply keeps_emit, Hf | intros; apply keeps_gets]. }
  apply keeps_bind; [|intros _].
  { destruct (negb there); [apply keeps_fs_update, Hf | apply keeps_ret]. }
  apply keeps_bind; [apply keeps_getTime, Hc | intros time].
  apply keeps_bind; [apply keeps_getSync, Hs | intros trace].
  apply keeps_bind; [|intros message].
  { destruct (3 <=? Z.of_nat (length trace)); [|apply keeps_ret].
    destruct (trace !! 2%nat); [apply keeps_ret | apply keeps_throw]. }
  apply keeps_try_catch; [|intros; apply keeps_fs_update, Hf].
  apply keeps_bind; [|intros stat].
  { unfold fs_statSync.
    apply keeps_bind; [apply keeps_emit, Hf | intros _].
    apply keeps_bind; [apply keeps_gets | intros fsys].
    destruct (fs.statSync fsys (logPath self) "latest.log");
      [apply keeps_throw | apply keeps_ret]. }
  apply keeps_bind; [|intros now].
  { unfold Date_now.
    apply keeps_bind; [apply keeps_emit, Hc | intros; apply keeps_gets]. }
  apply keeps_bind; [|intros _; apply keeps_fs_update, Hf].
  destruct (86400000 <=? now - fs.birthtimeMs stat);
    [apply keeps_fs_update, Hf | apply keeps_ret].
Qed.

(** [log] may add console lines, and only on the stream of its level. *)
Lemma keeps_log stack l args :
  P ClockRead -> P StackCapture -> (forall r, P (FsCall r)) ->
  (forall v, P (InspectCall v)) ->
  (forall message, P (Console (severity_stream l) message)) ->
  keeps P (log stack l args).
Proof.
  intros Hc Hs Hf Hi Hl. unfold log.
  apply keeps_bind; [|intros pass].
  { unfold checkLevel.
    apply keeps_bind; [apply keeps_gets | intros; apply keeps_ret]. }
  destruct (negb pass); [apply keeps_ret|].
  apply keeps_bind; [apply keeps_parse_args, Hi | intros parsed].
  destruct (join parsed " ") as [e|line]; [apply keeps_throw|].
  apply keeps_bind; [apply keeps_writeLine; assumption | intros _].
  apply keeps_bind; [apply keeps_gets | intros self].
  apply keeps_bind; [apply keeps_getTime, Hc | intros time].
  apply keeps_bind; [apply keeps_getSync, Hs | intros trace].
  apply keeps_bind; [|intros message].
  { destruct (3 <=? Z.of_nat (length trace)); [|apply keeps_ret].
    destruct (trace !! 2%nat); [apply keeps_ret | apply keeps_throw]. }
  destruct l; apply keeps_emit, Hl.
Qed.

Lemma keeps_operation l stack args :
  P ClockRead -> P StackCapture -> (forall r, P (FsCall r)) ->
  (forall v, P (InspectCall v)) ->
  (forall message, P (Console (severity_stream l) message)) ->
  keeps P (operation l stack args).
Proof. intros. destruct l; apply keeps_log; assumption. Qed.

End Keeping.

(** ** The shared logging routine, step by step *)

Section Logging.
Context `{Platform}.

Lemma add_events_nil (s : State) : add_events [] s = s.
Proof. destruct s. unfold add_events. cbn. rewrite app_nil_r. reflexivity. Qed.

Lemma add_events_cons e evs (s : State) :
  add_events evs (add_event e s) = add_events (e :: evs) s.
Proof.
  unfold add_events, add_event. cbn. rewrite <- app_assoc. reflexivity.
Qed.

Lemma parse_args_run args : forall parsed s,
  parse_args args parsed s =
  Returned (parsed ++ map boxed args)%list (add_events (inspect_calls args) s).
Proof.
  induction args as [|arg rest IH]; intros parsed s; cbn [parse_args map inspect_calls].
  - rewrite app_nil_r, add_events_nil. reflexivity.
  - unfold boxed at 1, is_object.
    destruct (String.eqb (typeof arg) "object").
    + rewrite bind_run. unfold util_inspect, bind, emit, ret.
      rewrite IH, add_events_cons, <- app_assoc. reflexivity.
    + rewrite IH, <- app_assoc. reflexivity.
Qed.

(** A call below the configured level returns at once. *)
Lemma log_filtered stack l args s :
  LEVEL.rank l < LEVEL.rank (_level (this s)) ->
  log stack l args s = Returned tt s.
Proof.
  intros Hlt. unfold log, checkLevel, bind, gets, ret.
  assert ((LEVEL.rank (_level (this s)) <=? LEVEL.rank l) = false) as ->
    by (apply Z.leb_gt; exact Hlt).
  reflexivity.
Qed.

(** A call at or above the configured level: the arguments are rendered,
    [writeLine] runs, and the console line is printed last. *)
Lemma log_passed stack l args s :
  LEVEL.rank (_level (this s)) <= LEVEL.rank l ->
  log stack l args s =
  match join (map boxed args) " " with
  | inl e => Thrown e (add_events (inspect_calls args) s)
  | inr line =>
      match writeLine (at_ "Logger.log" 232 10 :: stack) l line
              (add_events (inspect_calls args) s) with
      | Thrown e s2 => Thrown e s2
      | Returned _ s2 =>
          Returned tt
            (add_event
               (Console (severity_stream l)
                  (console_line (this s2) (clock s2) l line stack))
               (add_event StackCapture (add_event ClockRead s2)))
      end
  end.
Proof.
  intros Hle. unfold log. rewrite bind_run. unfold checkLevel at 1.
  rewrite bind_run. unfold gets at 1, ret at 1.
  assert ((LEVEL.rank (_level (this s)) <=? LEVEL.rank l) = true) as ->
    by (apply Z.leb_le; exact Hle).
  cbn [negb]. rewrite bind_run, parse_args_run. cbn [app].
  destruct (join (map boxed args) " ") as [e|line]; [reflexivity|].
  rewrite bind_run.
  destruct (writeLine (at_ "Logger.log" 232 10 :: stack) l line
              (add_events (inspect_calls args) s)) as [[] s2|e s2];
    [|reflexivity].
  rewrite bind_run. unfold gets at 1.
  rewrite bind_run, getTime_run.
  rewrite bind_run. unfold StackTrace_getSync at 1. rewrite bind_run.
  unfold emit at 1, ret at 1.
  rewrite bind_run.
  rewrite (locate_run _ (at_ "Logger.log" 239 30 :: stack)).
  destruct l; reflexivity.
Qed.

Lemma operation_is_log l stack args :
  operation l stack args = log (op_frame l :: stack) l args.
Proof. destruct l; reflexivity. Qed.

Lemma rendered_boxed v :
  is_symbol v = false -> join_element (boxed v) = inr (rendered v).
Proof. destruct v as [| |[]| | | | | | |]; cbn; intros; try reflexivity; discriminate. Qed.

Lemma join_boxed args :
  Forall (fun v => is_symbol v = false) args ->
  join (map boxed args) " " = inr (String.concat " " (map rendered args)).
Proof.
  induction 1 as [|v rest Hv Hrest IH]; [reflexivity|].
  cbn [map join String.concat]. rewrite (rendered_boxed v Hv).
  destruct rest as [|w rest']; [reflexivity|].
  cbn [map] in *. rewrite IH. reflexivity.
Qed.

Lemma console_output_app (evs evs' : list Event) :
  console_output (evs ++ evs') = (console_output evs ++ console_output evs')%list.
Proof. apply omap_app. Qed.

Lemma written_lines_app (evs evs' : list Event) :
  written_lines (evs ++ evs') = (written_lines evs ++ written_lines evs')%list.
Proof. apply omap_app. Qed.

Lemma console_output_quiet (evs : list Event) :
  Forall (fun e => is_console e = false) evs -> console_output evs = [].
Proof.
  induction 1 as [|e evs He _ IH]; [reflexivity|].
  destruct e; try discriminate; exact IH.
Qed.

Lemma inspect_calls_quiet args :
  console_output (inspect_calls args) = [] /\ written_lines (inspect_calls args) = [].
Proof.
  induction args as [|v rest [IH1 IH2]]; [split; reflexivity|].
  cbn [inspect_calls]. destruct (is_object v); [|split; assumption].
  split; assumption.
Qed.

End Logging.

Section Outcomes.
Context `{Platform}.

(** A call that is let through and returns has run [writeLine] and then
    printed its console line, in a state with the receiver and the clock
    it started with. *)
Lemma passed_call_returns l stack args s s' :
  LEVEL.rank (_level (this s)) <= LEVEL.rank l ->
  operation l stack args s = Returned tt s' ->
  exists content s2,
    join (map boxed args) " " = inr content /\
    writeLine (at_ "Logger.log" 232 10 :: op_frame l :: stack) l content
      (add_events (inspect_calls args) s) = Returned tt s2 /\
    this s2 = this s /\ clock s2 = clock s /\
    s' = add_event
           (Console (severity_stream l)
              (console_line (this s) (clock s) l content (op_frame l :: stack)))
           (add_event StackCapture (add_event ClockRead s2)).
Proof.
  intros Hle. rewrite operation_is_log, (log_passed _ _ _ _ Hle).
  destruct (join (map boxed args) " ") as [e|content]; [discriminate|].
  pose proof (keeps_writeLine (fun _ => True)
                (at_ "Logger.log" 232 10 :: op_frame l :: stack) l content
                I I (fun _ => I) (add_events (inspect_calls args) s)) as K.
  destruct (writeLine (at_ "Logger.log" 232 10 :: op_frame l :: stack) l content
              (add_events (inspect_calls args) s)) as [[] s2|e s2] eqn:W;
    [|discriminate].
  try rewrite W in K. destruct K as (Kt & Kc & _).
  cbn [final_state add_events this clock] in Kt, Kc.
  intros [= <-]. exists content, s2. rewrite Kt, Kc.
  repeat split; try reflexivity. exact W.
Qed.


End Outcomes.

(** ** The configuration surface *)

(** C9. Setting a configuration property and reading it back gives the
    value that was set, for each of the five properties; a new instance has
    the directory [path.join(cwd, "logs")], the minimum level info and
    write-to-file switched on. *)
Theorem configuration_roundtrip (this : Logger) (cwd dir format timeFmt : string)
    (flag : bool) (l : LEVEL.t) :
  path (set_path dir this) = dir /\
  writeFile (set_writeFile flag this) = flag /\
  level (set_level l this) = l /\
  timeFormat (set_timeFormat timeFmt this) = timeFmt /\
  logFormat (set_logFormat format this) = format /\
  path (createInstance cwd) = path.join cwd "logs" /\
  path (createInstance "/srv/app") = "/srv/app/logs" /\
  level (createInstance cwd) = LEVEL.info /\
  writeFile (createInstance cwd) = true.
Proof. repeat split. Qed.

(** ** Filtering, dispatch and the frame of a logging call *)

Section Calls.
Context `{Platform}.

(** C4. With the minimum level set to L2, the operation of a level L1 of
    lower rank returns in the state it was called in: no event of any kind
    (console line, fs call, inspection, clock reading, stack capture) is
    added to the trace and the file system is the same. *)
Theorem filtered_call_does_nothing (l1 l2 : LEVEL.t) (stack : list StackFrame)
    (args : list JsValue) (s : State) :
  LEVEL.rank l1 < LEVEL.rank l2 ->
  _level (this s) = l2 ->
  operation l1 stack args s = Returned tt s.
Proof.
  intros Hlt Hmin. rewrite operation_is_log. apply log_filtered.
  rewrite Hmin. exact Hlt.
Qed.

(** C10. However a per-level operation ends, filtered or not, returning
    or throwing, the receiver has the five configuration fields it had. *)
Theorem logging_preserves_configuration (l : LEVEL.t) (stack : list StackFrame)
    (args : list JsValue) (s : State) :
  let s' := final_state (operation l stack args s) in
  this s' = this s /\
  logPath (this s') = logPath (this s) /\
  doWrite (this s') = doWrite (this s) /\
  _level (this s') = _level (this s) /\
  _timeFormat (this s') = _timeFormat (this s) /\
  _format (this s') = _format (this s).
Proof.
  cbv zeta.
  destruct (keeps_operation (fun _ => True) l stack args I I
              (fun _ => I) (fun _ => I) (fun _ => I) s) as [Hthis _].
  rewrite Hthis. repeat split.
Qed.

Lemma console_output_on_stream (stream : ConsoleStream) (evs : list Event) :
  Forall (fun e => forall st message, e = Console st message -> st = stream) evs ->
  Forall (fun line => line.1 = stream) (console_output evs).
Proof.
  induction 1 as [|e evs He _ IH]; [constructor|].
  destruct e; try exact IH.
  constructor; [|exact IH]. exact (He _ _ eq_refl).
Qed.

Lemma writeLine_is_quiet stack l line s :
  let s' := final_state (writeLine stack l line s) in
  this s' = this s /\ clock s' = clock s /\
  exists evs, trace s' = (trace s ++ evs)%list /\ console_output evs = [].
Proof.
  cbv zeta.
  destruct (keeps_writeLine (fun e => is_console e = false) stack l line
              eq_refl eq_refl (fun _ => eq_refl) s)
    as (Hthis & Hclock & evs & Htrace & Hquiet).
  repeat split; try assumption.
  exists evs. split; [exact Htrace | apply console_output_quiet, Hquiet].
Qed.

(** Whatever a logging call prints, and however the call ends, it prints
    on the stream of its level. *)
Lemma printed_on_the_stream_of_the_level (l : LEVEL.t) (stack : list StackFrame)
    (args : list JsValue) (s : State) :
  exists printed,
    console_output (trace (final_state (operation l stack args s))) =
      (console_output (trace s) ++ printed)%list /\
    Forall (fun line => line.1 = severity_stream l) printed.
Proof.
  destruct (keeps_operation
              (fun e => forall st message,
                 e = Console st message -> st = severity_stream l)
              l stack args) with (s := s)
    as (_ & _ & evs & Htrace & Hevs); try (intros; discriminate).
  { intros message st message' [= <- _]. reflexivity. }
  exists (console_output evs). split.
  - rewrite Htrace. apply console_output_app.
  - apply console_output_on_stream, Hevs.
Qed.

End Calls.

(** ** The rotating append *)

Section Rotation.
Context `{Platform}.

(** C1, amended. [latest.log] exists.  If it was created 86 400 000 ms
    ago or earlier and the rename does not fail, it is first renamed to
    output-<creation date>.log and a new [latest.log], born now, holds the
    new line alone; if it is younger and the append does not fail, the line
    is appended to it, nothing is renamed and every other entry of the
    directory is as it was.  Without the two provisos the statement fails:
    a refused rename leaves no archive behind, and a refused append adds
    nothing to the file. *)
Theorem rotation_by_age (stack : list StackFrame) (l : LEVEL.t) (line : string)
    (s : State) (d : fs.Directory) (f : fs.File) :
  doWrite (this s) = true ->
  fs.dirs (files s) !! logPath (this s) = Some d ->
  fs.entries d !! "latest.log" = Some f ->
  let dir := logPath (this s) in
  let new_line := file_line (this s) (clock s) l line stack +:+ LF in
  (86400000 <= clock s - fs.birthtimeMs f ->
   (exists renamed,
      fs.renameSync (files s) dir "latest.log" (archive_name f) = inr renamed) ->
     exists s',
       writeLine stack l line s = Returned tt s' /\
       fs.lookup_file (files s') dir (archive_name f) = Some f /\
       fs.lookup_file (files s') dir "latest.log" =
         Some {| fs.content := new_line; fs.birthtimeMs := clock s;
                 fs.file_writable := true |} /\
       trace s' =
         (trace s ++
          [FsCall (ExistsSync dir); ClockRead; StackCapture;
           FsCall (StatSync dir "latest.log"); ClockRead;
           FsCall (RenameSync dir "latest.log" (archive_name f));
           FsCall (AppendFileSync dir "latest.log" new_line)])%list) /\
  (clock s - fs.birthtimeMs f < 86400000 ->
   (exists appended,
      fs.appendFileSync (files s) (clock s) dir "latest.log" new_line
        = inr appended) ->
     exists s',
       writeLine stack l line s = Returned tt s' /\
       fs.lookup_file (files s') dir "latest.log" =
         Some {| fs.content := fs.content f +:+ new_line;
                 fs.birthtimeMs := fs.birthtimeMs f;
                 fs.file_writable := fs.file_writable f |} /\
       (forall name, name <> "latest.log" ->
          fs.lookup_file (files s') dir name = fs.lookup_file (files s) dir name) /\
       trace s' =
         (trace s ++
          [FsCall (ExistsSync dir); ClockRead; StackCapture;
           FsCall (StatSync dir "latest.log"); ClockRead;
           FsCall (AppendFileSync dir "latest.log" new_line)])%list).
Proof.
  intros Hw Hd Hf. cbv zeta.
  rewrite (writeLine_on _ _ _ _ Hw), prepare_run, Hd. split.
  - intros Hold [renamed Hrename].
    assert (fs.dir_writable d = true) as Hdw.
    { unfold fs.renameSync in Hrename. rewrite Hd, Hf in Hrename.
      destruct (fs.dir_writable d); [reflexivity | discriminate]. }
    erewrite rotating_append_old; [|exact Hd|exact Hf|exact Hold].
    cbn zeta. rewrite Hdw. eexists. split; [reflexivity|].
    cbn [files put_files add_event trace]. split; [|split].
    + rewrite lookup_file_with_dir. cbn [fs.entries].
      rewrite lookup_insert_ne by (apply not_eq_sym, archive_is_not_latest).
      apply lookup_insert_eq.
    + rewrite lookup_file_with_dir. cbn [fs.entries]. apply lookup_insert_eq.
    + rewrite <- !app_assoc. reflexivity.
  - intros Hyoung [appended Happend].
    assert (fs.file_writable f = true) as Hfw.
    { unfold fs.appendFileSync in Happend. rewrite Hd, Hf in Happend.
      destruct (fs.file_writable f); [reflexivity | discriminate]. }
    erewrite rotating_append_young; [|exact Hd|exact Hf|exact Hyoung].
    cbn zeta. rewrite Hfw. eexists. split; [reflexivity|].
    cbn [files put_files add_event trace]. split; [|split].
    + rewrite lookup_file_with_dir. cbn [fs.entries]. apply lookup_insert_eq.
    + intros name Hname. rewrite lookup_file_with_dir. cbn [fs.entries].
      rewrite lookup_insert_ne by (apply not_eq_sym, Hname).
      unfold fs.lookup_file. rewrite Hd. reflexivity.
    + rewrite <- !app_assoc. reflexivity.
Qed.

End Rotation.

(** ** The content, the two lines and where they go *)

Section Lines.
Context `{Platform}.

Lemma join_symbol args :
  Exists (fun v => is_symbol v = true) args ->
  join (map boxed args) " "
    = inl (TypeError "Cannot convert a Symbol value to a string").
Proof.
  induction args as [|v rest IH]; intros Hex; [inversion Hex|].
  cbn [map join].
  destruct (is_symbol v) eqn:Hv.
  - destruct v; try discriminate. reflexivity.
  - rewrite (rendered_boxed v Hv).
    inversion Hex as [? ? Hv'|? ? Hrest]; subst; [congruence|].
    destruct rest as [|w rest']; [inversion Hrest|].
    cbn [map] in *. rewrite (IH Hrest). reflexivity.
Qed.

(** C6, amended. With no Symbol among the arguments, the content string is
    the arguments' pieces joined by single spaces, where a value whose
    typeof is "object" (an object, an array, null) is rendered by
    util.inspect, a string, number, boolean or bigint by its string form, a
    function by its source text, and undefined as the empty string;
    util.inspect is called for the "object" values and nothing else is
    touched.  A Symbol among the arguments makes the join throw. *)
Theorem content_rendering (args : list JsValue) (s : State) :
  Forall (fun v => is_symbol v = false) args ->
  exists parsed,
    parse_args args [] s = Returned parsed (add_events (inspect_calls args) s) /\
    join parsed " " = inr (String.concat " " (map rendered args)) /\
    (forall args', Exists (fun v => is_symbol v = true) args' ->
       exists parsed' s',
         parse_args args' [] s = Returned parsed' s' /\
         join parsed' " "
           = inl (TypeError "Cannot convert a Symbol value to a string")).
Proof.
  intros Hargs. exists (map boxed args). split; [|split].
  - rewrite parse_args_run. reflexivity.
  - apply join_boxed, Hargs.
  - intros args' Hex. exists (map boxed args'), (add_events (inspect_calls args') s).
    split; [rewrite parse_args_run; reflexivity | apply join_symbol, Hex].
Qed.



(** The file variant of a line is the same whatever stack the caller has:
    the frame at index 2 of the stack [writeLine] captures is the per-level
    operation's. *)
Lemma file_variant_ignores_caller (l : LEVEL.t) (stack stack' : list StackFrame)
    (args : list JsValue) (s : State) :
  files (final_state (operation l stack args s)) =
  files (final_state (operation l stack' args s)).
Proof.
  rewrite !operation_is_log.
  destruct (Z.lt_ge_cases (LEVEL.rank l) (LEVEL.rank (_level (this s)))) as [Hlt|Hle].
  - rewrite !log_filtered by exact Hlt. reflexivity.
  - rewrite !log_passed by exact Hle.
    destruct (join (map boxed args) " ") as [e|content]; [reflexivity|].
    assert (writeLine (at_ "Logger.log" 232 10 :: op_frame l :: stack) l content
              (add_events (inspect_calls args) s)
            = writeLine (at_ "Logger.log" 232 10 :: op_frame l :: stack') l content
                (add_events (inspect_calls args) s)) as ->.
    { destruct (doWrite (this (add_events (inspect_calls args) s))) eqn:Hw.
      - rewrite !writeLine_on by exact Hw. reflexivity.
      - rewrite !writeLine_off by exact Hw. reflexivity. }
    destruct (writeLine _ l content _); reflexivity.
Qed.

(** C5. The replacements run one after another over the whole message, so
    a token-shaped text that came in with the content is replaced by a
    later step.  A logger whose template is [{content}] alone, and so holds
    no [{fileName}], is handed the one argument [{fileName}]: the content is
    that text, one pass over the template gives it back as it is, and the
    line printed is the content with its [{fileName}] replaced by the file
    name of the caller's frame, /srv/app/server.js. *)
Theorem double_substitution_hazard :
  exists (self : Logger) (stack : list StackFrame) (args : list JsValue)
         (frame : StackFrame) (content : string) (s : State),
    this s = self /\
    stack !! 0%nat = Some frame /\
    LEVEL.rank (_level self) <= LEVEL.rank LEVEL.info /\
    join (map boxed args) " " = inr content /\
    JsString.includes content "{fileName}" = true /\
    JsString.includes (_format self) "{fileName}" = false /\
    JsString.includes (getFileName frame) "{fileName}" = false /\
    single_pass
      (record_tokens (toFormat (clock s) (_timeFormat self))
         (LEVEL_COLOR LEVEL.info) content (Some frame))
      (_format self) = content /\
    fill_template (_format self) (toFormat (clock s) (_timeFormat self))
      (LEVEL_COLOR LEVEL.info) content = content /\
    info stack args s =
      Returned tt
        (add_events
           [ClockRead; StackCapture;
            Console StandardOutput
              (JsString.replace content "{fileName}" (getFileName frame))] s) /\
    console_output (trace (final_state (info stack args s)))
      = [(StandardOutput, getFileName frame)] /\
    getFileName frame <> content.
Proof.
  exists Demo.bare, Demo.user_stack, [JString "{fileName}"], Demo.app_frame,
    "{fileName}", (Demo.start Demo.bare (Demo.disk Demo.logs_dir ∅ true)).
  repeat split; try reflexivity; try discriminate.
Qed.

End Lines.

(** ** Replacing in plain texts *)

Section Texts.

Lemma append_cons x (a b : string) : String x a +:+ b = String x (a +:+ b).
Proof. reflexivity. Qed.



Lemma has_char_append c (a b : string) :
  has_char c (a +:+ b) = has_char c a || has_char c b.
Proof.
  induction a as [|x a IH]; [reflexivity|].
  rewrite append_cons. cbn [has_char]. rewrite IH. apply orb_assoc.
Qed.

Lemma plain_append (a b : string) : plain (a +:+ b) = plain a && plain b.
Proof.
  unfold plain. rewrite !has_char_append.
  destruct (has_char "$" a), (has_char "$" b), (has_char "{" a), (has_char "{" b);
    reflexivity.
Qed.




Lemma prefix_brace t c s :
  Ascii.eqb "{" c = false -> String.prefix (String "{" t) (String c s) = false.
Proof.
  intros Hc. cbn [String.prefix].
  destruct (ascii_dec "{" c) as [<-|_]; [|reflexivity].
  rewrite Ascii.eqb_refl in Hc. discriminate.
Qed.


Lemma replace_absent s pat replacement :
  JsString.includes s pat = false -> JsString.replace s pat replacement = s.
Proof.
  unfold JsString.includes, JsString.replace.
  destruct (JsString.split_first pat s) as [[]|]; [discriminate | reflexivity].
Qed.


Lemma substring_all s : String.substring 0 (String.length s) s = s.
Proof. induction s as [|c s IH]; cbn; [reflexivity | rewrite IH; reflexivity]. Qed.

Lemma split_first_here pat rest :
  JsString.split_first pat (pat +:+ rest) = Some (EmptyString, rest).
Proof.
  assert (String.prefix pat (pat +:+ rest) = true) as Hp.
  { induction pat as [|c pat IH]; [destruct rest; reflexivity|].
    rewrite append_cons. cbn [String.prefix].
    destruct (ascii_dec c c); [exact IH | congruence]. }
  assert (String.substring (String.length pat)
            (String.length (pat +:+ rest) - String.length pat) (pat +:+ rest)
          = rest) as Hs.
  { clear Hp. induction pat as [|c pat IH].
    - change (EmptyString +:+ rest) with rest. cbn [String.length].
      rewrite Nat.sub_0_r. apply substring_all.
    - rewrite append_cons. cbn [String.length String.substring Nat.sub].
      exact IH. }
  destruct (pat +:+ rest) eqn:E; cbn [JsString.split_first];
    rewrite Hp, Hs; reflexivity.
Qed.

(** The first token after a text without braces is the first one found. *)
Lemma split_first_after_plain t p rest :
  has_char "{" p = false ->
  JsString.split_first (String "{" t) (p +:+ String "{" t +:+ rest)
  = Some (p, rest).
Proof.
  induction p as [|c p IH]; intros Hp.
  - apply (split_first_here (String "{" t)).
  - cbn [has_char] in Hp. apply orb_false_elim in Hp as [Hc Hp].
    rewrite append_cons. cbn [JsString.split_first].
    rewrite (prefix_brace _ _ _ Hc), (IH Hp). reflexivity.
Qed.




(** A template in which none of the first three tokens occurs. *)
Lemma fill_template_absent format time tag content :
  JsString.includes format "{time}" = false ->
  JsString.includes format "{level}" = false ->
  JsString.includes format "{content}" = false ->
  fill_template format time tag content = format.
Proof.
  intros H1 H2 H3. unfold fill_template.
  rewrite (replace_absent _ _ _ H1), (replace_absent _ _ _ H2).
  apply replace_absent, H3.
Qed.

Lemma with_location_absent message trace :
  JsString.includes message "{fileName}" = false ->
  JsString.includes message "{lineNumber}" = false ->
  JsString.includes message "{functionName}" = false ->
  JsString.includes message "{columnNumber}" = false ->
  with_location message trace = message.
Proof.
  intros H1 H2 H3 H4. destruct trace as [|a [|b [|c rest]]]; try reflexivity.
  cbn [with_location]. unfold fill_location.
  rewrite (replace_absent _ _ _ H1), (replace_absent _ _ _ H2),
    (replace_absent _ _ _ H3).
  apply replace_absent, H4.
Qed.

End Texts.

(** ** Every way [writeLine] can end *)

Section Endings.
Context `{Platform}.

(** Splits a goal about [writeLine stack l line s], writing switched on,
    into the ways the directory and [latest.log] can be found, and runs the
    call in each. *)
Ltac writeLine_cases s stack l line Hw :=
  let d := fresh "d" in let f := fresh "f" in
  let Hd := fresh "Hd" in let Hf := fresh "Hf" in
  let Hage := fresh "Hage" in let Hdw := fresh "Hdw" in
  let Hfw := fresh "Hfw" in let Hmk := fresh "Hmk" in
  rewrite (writeLine_on stack l line s Hw), prepare_run;
  destruct (fs.dirs (files s) !! logPath (this s)) as [d|] eqn:Hd;
  [ destruct (fs.entries d !! "latest.log") as [f|] eqn:Hf;
    [ destruct (Z.leb_spec 86400000 (clock s - fs.birthtimeMs f)) as [Hage|Hage];
      [ erewrite rotating_append_old; [|exact Hd|exact Hf|exact Hage]
      | erewrite rotating_append_young; [|exact Hd|exact Hf|exact Hage] ];
      cbn zeta;
      destruct (fs.dir_writable d) eqn:Hdw; destruct (fs.file_writable f) eqn:Hfw
    | erewrite rotating_append_absent; [|exact Hd|exact Hf];
      cbn zeta; destruct (fs.dir_writable d) eqn:Hdw ]
  | destruct (fs.mkdir_error (files s) (logPath (this s))) eqn:Hmk;
    [ | erewrite rotating_append_absent;
        [ | cbn [files put_files add_event fs.with_dir fs.dirs];
            apply lookup_insert_eq
          | cbn [fs.entries]; apply lookup_empty ];
        cbn zeta; cbn [fs.dir_writable] ] ].

(** With writing on, [writeLine] returns having handed exactly the line
    to fs, with [latest.log] ending in it, or throws what mkdirSync or the
    handler's writeFileSync threw. *)
Lemma writeLine_endings stack l line s :
  doWrite (this s) = true ->
  let dir := logPath (this s) in
  let data := file_line (this s) (clock s) l line stack +:+ LF in
  (exists s' f' kept,
     writeLine stack l line s = Returned tt s' /\
     written_lines (trace s') = (written_lines (trace s) ++ [data])%list /\
     fs.lookup_file (files s') dir "latest.log" = Some f' /\
     fs.content f' = kept +:+ data) \/
  (exists code s',
     writeLine stack l line s = Thrown (SystemError code "mkdir") s' /\
     fs.dirs (files s) !! dir = None /\
     fs.mkdir_error (files s) dir = Some code /\
     files s' = files s) \/
  (exists code s',
     writeLine stack l line s = Thrown (SystemError code "open") s' /\
     is_Some (fs.dirs (files s) !! dir)).
Proof.
  intros Hw. cbv zeta.
  assert (forall s1 fsys d' (f' : fs.File) evs data kept,
    trace s1 = (trace s ++ evs)%list -> written_lines evs = [data] ->
    fs.entries d' !! "latest.log" = Some f' ->
    fs.content f' = kept +:+ data ->
    exists s' f'' kept',
      Returned tt (put_files (fs.with_dir fsys (logPath (this s)) d') s1)
        = Returned tt s' /\
      written_lines (trace s') = (written_lines (trace s) ++ [data])%list /\
      fs.lookup_file (files s') (logPath (this s)) "latest.log" = Some f'' /\
      fs.content f'' = kept' +:+ data) as Done.
  { intros s1 fsys d' f' evs data kept Ht Hl Hf' Hk.
    eexists _, f', kept. split; [reflexivity|]. split; [|split].
    - cbn [trace put_files]. rewrite Ht, written_lines_app, Hl. reflexivity.
    - cbn [files put_files]. rewrite lookup_file_with_dir. exact Hf'.
    - exact Hk. }
  writeLine_cases s stack l line Hw;
    first
      [ (* returned *)
        left; eapply Done;
        first [ cbn [trace add_event put_files]; rewrite <- !app_assoc;
                reflexivity
              | cbn [fs.entries]; apply lookup_insert_eq
              | reflexivity
              | instantiate (1 := EmptyString); reflexivity ]
      | (* mkdir threw *)
        right; left; eexists _, _; repeat split; reflexivity
      | (* the handler's write threw *)
        right; right; eexists _, _; split; [reflexivity | eexists; reflexivity] ].
Qed.

(** Whatever happens, [writeLine] touches no directory but the log
    directory, and in it no entry but [latest.log] and the archive of the
    [latest.log] it found. *)
Lemma writeLine_confined stack l line s :
  let dir := logPath (this s) in
  let s' := final_state (writeLine stack l line s) in
  (forall p, p <> dir -> fs.dirs (files s') !! p = fs.dirs (files s) !! p) /\
  (forall name, name <> "latest.log" ->
     (forall f, fs.lookup_file (files s) dir "latest.log" = Some f ->
                name <> archive_name f) ->
     fs.lookup_file (files s') dir name = fs.lookup_file (files s) dir name) /\
  fs.mkdir_error (files s') = fs.mkdir_error (files s).
Proof.
  cbv zeta. destruct (doWrite (this s)) eqn:Hw;
    [|rewrite (writeLine_off _ _ _ _ Hw); repeat split].
  writeLine_cases s stack l line Hw;
    cbn [final_state files put_files add_event fs.with_dir fs.dirs fs.mkdir_error];
    (split; [|split; [|reflexivity]]);
    try (intros p Hp; rewrite ?lookup_insert_ne by (apply not_eq_sym, Hp);
         reflexivity);
    intros name Hname Harch;
    try (match goal with
         | Hf : fs.entries ?d !! "latest.log" = Some ?f |- _ =>
             assert (name <> archive_name f)
               by (apply Harch; unfold fs.lookup_file; rewrite Hd; exact Hf)
         end);
    fold (fs.with_dir (files s)); rewrite ?lookup_file_with_dir;
    try reflexivity;
    unfold fs.lookup_file; rewrite ?Hd; cbn [fs.entries];
    rewrite ?(lookup_insert_ne _ "latest.log") by (apply not_eq_sym, Hname);
    rewrite ?lookup_insert_ne by (apply not_eq_sym; assumption);
    rewrite ?lookup_delete_ne by (apply not_eq_sym, Hname);
    rewrite ?lookup_empty; reflexivity.
Qed.

Lemma Thrown_inj {A : Type} (e1 e2 : JsError) (s1 s2 : State) :
  @Thrown A e1 s1 = Thrown e2 s2 -> e1 = e2 /\ s1 = s2.
Proof. intros [= -> ->]. split; reflexivity. Qed.

(** A [writeLine] that throws is thrown out of by the last call it made.
    That call is mkdirSync, refused by the file system the call started
    on, or the handler's writeFileSync of the line, refused by the file
    system the call leaves behind. *)
Lemma writeLine_throws stack l line s e s' :
  doWrite (this s) = true ->
  writeLine stack l line s = Thrown e s' ->
  let dir := logPath (this s) in
  let data := file_line (this s) (clock s) l line stack +:+ LF in
  (exists code,
     e = SystemError code "mkdir" /\
     fs.mkdirSync (files s) dir = inl code /\
     trace s' =
       (trace s ++ [FsCall (ExistsSync dir); FsCall (MkdirSync dir)])%list) \/
  (exists code,
     e = SystemError code "open" /\
     fs.writeFileSync (files s') (clock s) dir "latest.log" data = inl code /\
     last (trace s') = Some (FsCall (WriteFileSync dir "latest.log" data))).
Proof.
  intros Hw. cbv zeta.
  writeLine_cases s stack l line Hw;
    try (match goal with
         | |- Returned tt ?final = _ -> _ =>
             generalize final; intros ? Hrun; discriminate Hrun
         end);
    intros Hrun; apply Thrown_inj in Hrun as [He Hs]; subst e s'.
  all: first
    [ (* mkdir threw *)
      left; eexists; split; [reflexivity|]; split;
      [ unfold fs.mkdirSync; rewrite Hd, Hmk; reflexivity
      | cbn [trace add_event]; rewrite <- !app_assoc; reflexivity ]
    | (* the handler's write threw *)
      right; eexists; split; [reflexivity|]; split;
      [ cbn [files add_event put_files]; unfold fs.writeFileSync;
        rewrite Hd, ?Hf, ?Hdw, ?Hfw; reflexivity
      | cbn [trace add_event]; apply last_snoc ] ].
Qed.

End Endings.

(** ** What the handler catches *)

Section Handler.
Context `{Platform}.

(** C2, amended. Writing is on.  Everything thrown inside the try block
    is caught and answered with an overwriting write of the line: a missing
    file (stat fails) is created afresh; a failed rename is swallowed, the
    call returns, the old [latest.log] is overwritten with the new line
    alone and no archive is made; a failed append is caught as well and
    followed by the write, which is the last call made, is refused on the
    same file, and whose error leaves the call.  And an error leaves the
    call only so: it is the error of mkdirSync, refused on the file system
    the call started on, or that of the handler's writeFileSync, refused on
    the file system the call leaves behind, and that call is the last one
    made. *)
Theorem append_failures_fall_back (stack : list StackFrame) (l : LEVEL.t)
    (line : string) (s : State) :
  doWrite (this s) = true ->
  let dir := logPath (this s) in
  let new_line := file_line (this s) (clock s) l line stack +:+ LF in
  let before_try :=
    [FsCall (ExistsSync dir); ClockRead; StackCapture] in
  (forall d,
     fs.dirs (files s) !! dir = Some d ->
     (fs.entries d !! "latest.log" = None -> fs.dir_writable d = true ->
        fs.statSync (files s) dir "latest.log" = inl ENOENT /\
        exists s',
          writeLine stack l line s = Returned tt s' /\
          fs.lookup_file (files s') dir "latest.log" =
            Some {| fs.content := new_line; fs.birthtimeMs := clock s;
                    fs.file_writable := true |} /\
          trace s' =
            (trace s ++ before_try ++
             [FsCall (StatSync dir "latest.log");
              FsCall (WriteFileSync dir "latest.log" new_line)])%list) /\
     (forall f,
        fs.entries d !! "latest.log" = Some f ->
        86400000 <= clock s - fs.birthtimeMs f ->
        fs.dir_writable d = false -> fs.file_writable f = true ->
        fs.renameSync (files s) dir "latest.log" (archive_name f) = inl EACCES /\
        exists s',
          writeLine stack l line s = Returned tt s' /\
          fs.lookup_file (files s') dir "latest.log" =
            Some {| fs.content := new_line; fs.birthtimeMs := fs.birthtimeMs f;
                    fs.file_writable := true |} /\
          fs.lookup_file (files s') dir (archive_name f) =
            fs.lookup_file (files s) dir (archive_name f) /\
          trace s' =
            (trace s ++ before_try ++
             [FsCall (StatSync dir "latest.log"); ClockRead;
              FsCall (RenameSync dir "latest.log" (archive_name f));
              FsCall (WriteFileSync dir "latest.log" new_line)])%list) /\
     (forall f,
        fs.entries d !! "latest.log" = Some f ->
        clock s - fs.birthtimeMs f < 86400000 ->
        fs.file_writable f = false ->
        fs.appendFileSync (files s) (clock s) dir "latest.log" new_line
          = inl EACCES /\
        fs.writeFileSync (files s) (clock s) dir "latest.log" new_line
          = inl EACCES /\
        exists s',
          writeLine stack l line s = Thrown (SystemError EACCES "open") s' /\
          files s' = files s /\
          trace s' =
            (trace s ++ before_try ++
             [FsCall (StatSync dir "latest.log"); ClockRead;
              FsCall (AppendFileSync dir "latest.log" new_line);
              FsCall (WriteFileSync dir "latest.log" new_line)])%list)) /\
  (forall e s',
     writeLine stack l line s = Thrown e s' ->
     (exists code,
        e = SystemError code "mkdir" /\
        fs.mkdirSync (files s) dir = inl code /\
        trace s' =
          (trace s ++ [FsCall (ExistsSync dir); FsCall (MkdirSync dir)])%list) \/
     (exists code,
        e = SystemError code "open" /\
        fs.writeFileSync (files s') (clock s) dir "latest.log" new_line
          = inl code /\
        last (trace s') =
          Some (FsCall (WriteFileSync dir "latest.log" new_line)))).
Proof.
  intros Hw. cbv zeta. split.
  - intros d Hd.
    rewrite (writeLine_on _ _ _ _ Hw), prepare_run, Hd.
    split; [|split].
    + intros Hf Hdw. split.
      * unfold fs.statSync. rewrite Hd, Hf. reflexivity.
      * erewrite rotating_append_absent; [|exact Hd|exact Hf].
        cbn zeta. rewrite Hdw. eexists. split; [reflexivity|].
        cbn [files put_files add_event trace]. split.
        -- rewrite lookup_file_with_dir. cbn [fs.entries]. apply lookup_insert_eq.
        -- rewrite <- !app_assoc. reflexivity.
    + intros f Hf Hold Hdw Hfw. split.
      * unfold fs.renameSync. rewrite Hd, Hf, Hdw. reflexivity.
      * erewrite rotating_append_old; [|exact Hd|exact Hf|exact Hold].
        cbn zeta. rewrite Hdw, Hfw. eexists. split; [reflexivity|].
        cbn [files put_files add_event trace]. split; [|split].
        -- rewrite lookup_file_with_dir. cbn [fs.entries]. apply lookup_insert_eq.
        -- rewrite lookup_file_with_dir. cbn [fs.entries].
           rewrite lookup_insert_ne by (apply not_eq_sym, archive_is_not_latest).
           unfold fs.lookup_file. rewrite Hd. reflexivity.
        -- rewrite <- !app_assoc. reflexivity.
    + intros f Hf Hyoung Hfw. split; [|split].
      * unfold fs.appendFileSync. rewrite Hd, Hf, Hfw. reflexivity.
      * unfold fs.writeFileSync. rewrite Hd, Hf, Hfw. reflexivity.
      * erewrite rotating_append_young; [|exact Hd|exact Hf|exact Hyoung].
        cbn zeta. rewrite Hfw. eexists. split; [reflexivity|].
        cbn [files put_files add_event trace]. split; [reflexivity|].
        rewrite <- !app_assoc. reflexivity.
  - intros e s' Hrun. exact (writeLine_throws _ _ _ _ _ _ Hw Hrun).
Qed.

End Handler.

(** ** More about a logging call *)

Section Reports.
Context `{Platform}.

Lemma join_throws_on_symbol_only args e :
  join (map boxed args) " " = inl e ->
  e = TypeError "Cannot convert a Symbol value to a string" /\
  Exists (fun v => is_symbol v = true) args.
Proof.
  intros Hj.
  destruct (Forall_Exists_dec (fun v => is_symbol v = false)
              (fun v => is_symbol v = true)
              (fun v => match is_symbol v as b
                          return {b = false} + {b = true} with
                        | true => right eq_refl
                        | false => left eq_refl
                        end) args) as [Hall|Hex].
  - rewrite (join_boxed _ Hall) in Hj. discriminate.
  - rewrite (join_symbol _ Hex) in Hj. split; [congruence | exact Hex].
Qed.

(** The lines of a call that was let through and returned. *)
Lemma returned_call_lines l stack args s s' :
  LEVEL.rank (_level (this s)) <= LEVEL.rank l ->
  operation l stack args s = Returned tt s' ->
  exists content,
    join (map boxed args) " " = inr content /\
    console_output (trace s') =
      (console_output (trace s) ++
       [(severity_stream l,
         console_line (this s) (clock s) l content (op_frame l :: stack))])%list /\
    (doWrite (this s) = true ->
     written_lines (trace s') =
       (written_lines (trace s) ++
        [file_line (this s) (clock s) l content
           (at_ "Logger.log" 232 10 :: op_frame l :: stack) +:+ LF])%list /\
     exists f' kept,
       fs.lookup_file (files s') (logPath (this s)) "latest.log" = Some f' /\
       fs.content f' =
         kept +:+
         file_line (this s) (clock s) l content
           (at_ "Logger.log" 232 10 :: op_frame l :: stack) +:+ LF).
Proof.
  intros Hle Hrun.
  destruct (passed_call_returns _ _ _ _ _ Hle Hrun)
    as (content & s2 & Hjoin & Hwrite & _ & _ & ->).
  exists content. split; [exact Hjoin|].
  destruct (inspect_calls_quiet args) as [Qc Qw].
  set (s1 := add_events (inspect_calls args) s) in *.
  pose proof (writeLine_is_quiet
                (at_ "Logger.log" 232 10 :: op_frame l :: stack) l content s1) as Q.
  cbv zeta in Q. rewrite Hwrite in Q. cbn [final_state] in Q.
  destruct Q as (_ & _ & evs2 & Htrace2 & Hquiet2).
  split.
  - cbn [trace add_event]. rewrite Htrace2. cbn [trace s1 add_events].
    rewrite !console_output_app, Qc, Hquiet2. cbn [console_output omap app].
    rewrite !app_nil_r. reflexivity.
  - intros Hw.
    destruct (writeLine_endings
                (at_ "Logger.log" 232 10 :: op_frame l :: stack) l content s1 Hw)
      as [(s2' & f' & kept & Hrun2 & Hlines & Hfile & Hcont)
         |[(code & s2' & Hrun2 & _)|(code & s2' & Hrun2 & _)]];
      rewrite Hwrite in Hrun2; try discriminate.
    injection Hrun2 as <-. cbn [this clock s1 add_events] in *. split.
    + cbn [trace add_event]. rewrite !written_lines_app, Hlines.
      cbn [trace s1 add_events]. rewrite written_lines_app, Qw.
      cbn [written_lines omap app]. rewrite !app_nil_r. reflexivity.
    + exists f', kept. split; [exact Hfile | exact Hcont].
Qed.

(** X2. A call that ends by throwing has printed nothing: the console
    line is the last thing [log] does. *)
Theorem failed_call_prints_nothing (l : LEVEL.t) (stack : list StackFrame)
    (args : list JsValue) (s s' : State) (e : JsError) :
  operation l stack args s = Thrown e s' ->
  console_output (trace s') = console_output (trace s).
Proof.
  rewrite operation_is_log.
  destruct (Z.lt_ge_cases (LEVEL.rank l) (LEVEL.rank (_level (this s)))) as [Hlt|Hle].
  - rewrite (log_filtered _ _ _ _ Hlt). discriminate.
  - rewrite (log_passed _ _ _ _ Hle).
    destruct (inspect_calls_quiet args) as [Qc _].
    destruct (join (map boxed args) " ") as [e'|content].
    + intros [= _ <-]. cbn [trace add_events].
      rewrite console_output_app, Qc. apply app_nil_r.
    + pose proof (writeLine_is_quiet
                    (at_ "Logger.log" 232 10 :: op_frame l :: stack) l content
                    (add_events (inspect_calls args) s)) as Q.
      cbv zeta in Q.
      destruct (writeLine _ l content _) as [[] s2|e' s2]; [discriminate|].
      cbn [final_state] in Q. destruct Q as (_ & _ & evs & Htrace & Hquiet).
      intros [= _ <-]. rewrite Htrace. cbn [trace add_events].
      rewrite !console_output_app, Qc, Hquiet. rewrite !app_nil_r. reflexivity.
Qed.

(** X3. The exceptions that leave a logging call: the TypeError of the
    join, when a Symbol is among the arguments, and, with writing on, what
    mkdirSync or the handler's writeFileSync threw.  In the second case the
    call that threw is the last one the logging call made, and the file
    system named refuses it: the one the call started on for mkdirSync, the
    one it leaves behind for the write of the line.  What statSync,
    renameSync and appendFileSync throw never leaves the call: after each
    of them a further call is made. *)
Theorem escaping_errors (l : LEVEL.t) (stack : list StackFrame)
    (args : list JsValue) (s s' : State) (e : JsError) :
  operation l stack args s = Thrown e s' ->
  (e = TypeError "Cannot convert a Symbol value to a string" /\
   Exists (fun v => is_symbol v = true) args) \/
  (doWrite (this s) = true /\
   exists code content,
     join (map boxed args) " " = inr content /\
     let dir := logPath (this s) in
     let data :=
       file_line (this s) (clock s) l content
         (at_ "Logger.log" 232 10 :: op_frame l :: stack) +:+ LF in
     (e = SystemError code "mkdir" /\
      fs.mkdirSync (files s) dir = inl code /\
      last (trace s') = Some (FsCall (MkdirSync dir))) \/
     (e = SystemError code "open" /\
      fs.writeFileSync (files s') (clock s) dir "latest.log" data = inl code /\
      last (trace s') = Some (FsCall (WriteFileSync dir "latest.log" data)))).
Proof.
  rewrite operation_is_log.
  destruct (Z.lt_ge_cases (LEVEL.rank l) (LEVEL.rank (_level (this s)))) as [Hlt|Hle].
  - rewrite (log_filtered _ _ _ _ Hlt). discriminate.
  - rewrite (log_passed _ _ _ _ Hle).
    destruct (join (map boxed args) " ") as [e'|content] eqn:Hjoin.
    + intros [= <- _]. left. apply join_throws_on_symbol_only, Hjoin.
    + set (s1 := add_events (inspect_calls args) s).
      destruct (doWrite (this s)) eqn:Hw.
      * destruct (writeLine (at_ "Logger.log" 232 10 :: op_frame l :: stack) l
                    content s1) as [[] s2|e2 s2] eqn:Hrun; [discriminate|].
        intros Hout. apply Thrown_inj in Hout as [-> ->].
        right. split; [reflexivity|].
        destruct (writeLine_throws _ _ _ s1 _ _ Hw Hrun)
          as [(code & He & Hmk & Ht)|(code & He & Hwrite & Ht)];
          exists code, content; (split; [reflexivity|]); cbv zeta.
        -- left. split; [exact He|]. split; [exact Hmk|].
           rewrite Ht, last_app_cons. reflexivity.
        -- right. split; [exact He|]. split; [exact Hwrite | exact Ht].
      * rewrite (writeLine_off _ _ _ s1 Hw). discriminate.
Qed.


Lemma files_of_operation l stack args s :
  files (final_state (operation l stack args s)) = files s \/
  exists content,
    files (final_state (operation l stack args s)) =
    files (final_state
             (writeLine (at_ "Logger.log" 232 10 :: op_frame l :: stack) l
                content (add_events (inspect_calls args) s))).
Proof.
  rewrite operation_is_log.
  destruct (Z.lt_ge_cases (LEVEL.rank l) (LEVEL.rank (_level (this s)))) as [Hlt|Hle].
  - rewrite (log_filtered _ _ _ _ Hlt). left. reflexivity.
  - rewrite (log_passed _ _ _ _ Hle).
    destruct (join (map boxed args) " ") as [e|content]; [left; reflexivity|].
    right. exists content. destruct (writeLine _ l content _); reflexivity.
Qed.

(** X5. Whatever the arguments and however the call ends, a logging call
    changes no directory but the log directory, and in it no entry but
    [latest.log] and the archive named after the [latest.log] it found. *)
Theorem logging_is_confined (l : LEVEL.t) (stack : list StackFrame)
    (args : list JsValue) (s : State) :
  let dir := logPath (this s) in
  let s' := final_state (operation l stack args s) in
  (forall p, p <> dir -> fs.dirs (files s') !! p = fs.dirs (files s) !! p) /\
  (forall name, name <> "latest.log" ->
     (forall f, fs.lookup_file (files s) dir "latest.log" = Some f ->
                name <> archive_name f) ->
     fs.lookup_file (files s') dir name = fs.lookup_file (files s) dir name).
Proof.
  cbv zeta. destruct (files_of_operation l stack args s) as [->|[content ->]].
  - split; reflexivity.
  - pose proof (writeLine_confined
                  (at_ "Logger.log" 232 10 :: op_frame l :: stack) l content
                  (add_events (inspect_calls args) s)) as (Hdirs & Hnames & _).
    split; [exact Hdirs | exact Hnames].
Qed.

(** X6. The log directory is missing and cannot be made: the error of
    mkdirSync leaves the call, after the two fs calls, with the file system
    as it was and nothing printed. *)
Theorem mkdir_failure_propagates (l : LEVEL.t) (stack : list StackFrame)
    (args : list JsValue) (s : State) (code : Errno) :
  LEVEL.rank (_level (this s)) <= LEVEL.rank l ->
  Forall (fun v => is_symbol v = false) args ->
  doWrite (this s) = true ->
  fs.dirs (files s) !! logPath (this s) = None ->
  fs.mkdir_error (files s) (logPath (this s)) = Some code ->
  exists s',
    operation l stack args s = Thrown (SystemError code "mkdir") s' /\
    files s' = files s /\
    trace s' =
      (trace s ++ inspect_calls args ++
       [FsCall (ExistsSync (logPath (this s)));
        FsCall (MkdirSync (logPath (this s)))])%list.
Proof.
  intros Hle Hargs Hw Hd Hmk.
  rewrite operation_is_log, (log_passed _ _ _ _ Hle), (join_boxed _ Hargs).
  set (s1 := add_events (inspect_calls args) s).
  rewrite (writeLine_on _ _ _ s1 Hw), prepare_run.
  cbn [files this s1 add_events]. rewrite Hd, Hmk.
  eexists. split; [reflexivity|]. split; [reflexivity|].
  cbn [trace add_event s1 add_events]. rewrite <- !app_assoc. reflexivity.
Qed.

(** X7. The log directory is missing and can be made: it is created, not
    recursively, and afterwards holds [latest.log] alone, born now, with
    the line as its only content. *)
Theorem missing_directory_is_created (l : LEVEL.t) (stack : list StackFrame)
    (args : list JsValue) (s : State) :
  LEVEL.rank (_level (this s)) <= LEVEL.rank l ->
  Forall (fun v => is_symbol v = false) args ->
  doWrite (this s) = true ->
  fs.dirs (files s) !! logPath (this s) = None ->
  fs.mkdir_error (files s) (logPath (this s)) = None ->
  let content := String.concat " " (map rendered args) in
  exists s',
    operation l stack args s = Returned tt s' /\
    fs.dirs (files s') !! logPath (this s) =
      Some {| fs.entries :=
                <["latest.log" :=
                    {| fs.content :=
                         file_line (this s) (clock s) l content
                           (at_ "Logger.log" 232 10 :: op_frame l :: stack)
                         +:+ LF;
                       fs.birthtimeMs := clock s;
                       fs.file_writable := true |}]> ∅;
              fs.dir_writable := true |} /\
    FsCall (MkdirSync (logPath (this s))) ∈ trace s'.
Proof.
  intros Hle Hargs Hw Hd Hmk. cbv zeta.
  rewrite operation_is_log, (log_passed _ _ _ _ Hle), (join_boxed _ Hargs).
  set (s1 := add_events (inspect_calls args) s).
  rewrite (writeLine_on _ _ _ s1 Hw), prepare_run.
  cbn [files this s1 add_events]. rewrite Hd, Hmk.
  erewrite rotating_append_absent;
    [| cbn [files put_files add_event fs.with_dir fs.dirs]; apply lookup_insert_eq
     | cbn [fs.entries]; apply lookup_empty ].
  cbn zeta. cbn [fs.dir_writable]. eexists. split; [reflexivity|]. split.
  - cbn [files put_files add_event fs.with_dir fs.dirs].
    rewrite lookup_insert_eq. reflexivity.
  - cbn [trace add_event put_files add_events].
    set_solver.
Qed.

End Reports.

(** ** What the lines look like *)

Section Templates.
Context `{Platform}.


Lemma split_first_miss pat c s :
  String.prefix pat (String c s) = false ->
  JsString.split_first pat (String c s) =
  match JsString.split_first pat s with
  | Some (before, after) => Some (String c before, after)
  | None => None
  end.
Proof. intros Hp. cbn [JsString.split_first]. rewrite Hp. reflexivity. Qed.

Lemma split_first_skip t p s :
  has_char "{" p = false ->
  JsString.split_first (String "{" t) (p +:+ s) =
  match JsString.split_first (String "{" t) s with
  | Some (before, after) => Some (p +:+ before, after)
  | None => None
  end.
Proof.
  induction p as [|c p IH]; intros Hp.
  - change (EmptyString +:+ s) with s.
    destruct (JsString.split_first (String "{" t) s) as [[]|]; reflexivity.
  - cbn [has_char] in Hp. apply orb_false_elim in Hp as [Hc Hp].
    rewrite append_cons, (split_first_miss _ _ _ (prefix_brace _ _ _ Hc)), (IH Hp).
    destruct (JsString.split_first (String "{" t) s) as [[]|]; reflexivity.
Qed.

(** Neither [{time}] nor [{level}] is found in a template that has its
    first brace at [{content}] and none of them after it. *)
Lemma no_token_across_content t p rest :
  (forall after, String.prefix (String "{" t) ("{content}" +:+ after) = false) ->
  has_char "{" p = false ->
  JsString.includes rest (String "{" t) = false ->
  JsString.includes (p +:+ "{content}" +:+ rest) (String "{" t) = false.
Proof.
  intros Ht Hp Hrest. unfold JsString.includes in *.
  rewrite (split_first_skip _ _ _ Hp).
  specialize (Ht rest).
  change ("{content}" +:+ rest) with (String "{" ("content}" +:+ rest)) in *.
  rewrite (split_first_miss _ _ _ Ht).
  rewrite (split_first_skip t "content}" rest eq_refl).
  destruct (JsString.split_first (String "{" t) rest) as [[]|];
    [discriminate | reflexivity].
Qed.


(** X9. A template in which none of the seven tokens occurs is printed
    and written as it stands, whatever the arguments are. *)
Theorem template_without_tokens (l : LEVEL.t) (stack : list StackFrame)
    (args : list JsValue) (s s' : State) :
  Forall (fun token => JsString.includes (_format (this s)) token = false) tokens ->
  LEVEL.rank (_level (this s)) <= LEVEL.rank l ->
  operation l stack args s = Returned tt s' ->
  console_output (trace s') =
    (console_output (trace s) ++ [(severity_stream l, _format (this s))])%list /\
  (doWrite (this s) = true ->
   written_lines (trace s') =
     (written_lines (trace s) ++ [_format (this s) +:+ LF])%list).
Proof.
  intros Htokens Hle Hrun.
  destruct (returned_call_lines _ _ _ _ _ Hle Hrun)
    as (content & _ & Hconsole & Hfile).
  unfold tokens in Htokens.
  repeat (apply Forall_cons in Htokens as [? Htokens]).
  unfold console_line in Hconsole. unfold file_line in Hfile.
  rewrite fill_template_absent, with_location_absent in Hconsole by assumption.
  rewrite fill_template_absent, with_location_absent in Hfile by assumption.
  split; [exact Hconsole | intros Hw; exact (proj1 (Hfile Hw))].
Qed.

(** X10. Only the first [{content}] of a template is replaced, and the
    content is read as a replacement text: where the template has no brace
    before its first [{content}] and no [{time}] or [{level}] after it, the
    console line is the template with that one token replaced by
    GetSubstitution of the content (so [$$] prints one dollar sign and [$&]
    prints the token), provided no location token is in the result. *)
Theorem content_token_replaced_once (l : LEVEL.t) (stack : list StackFrame)
    (args : list JsValue) (s s' : State) (p rest : string) :
  _format (this s) = p +:+ "{content}" +:+ rest ->
  has_char "{" p = false ->
  JsString.includes rest "{time}" = false ->
  JsString.includes rest "{level}" = false ->
  LEVEL.rank (_level (this s)) <= LEVEL.rank l ->
  Forall (fun v => is_symbol v = false) args ->
  let content := String.concat " " (map rendered args) in
  let line :=
    p +:+ JsString.GetSubstitution "{content}" p rest content +:+ rest in
  Forall (fun token => JsString.includes line token = false)
    ["{fileName}"; "{lineNumber}"; "{functionName}"; "{columnNumber}"] ->
  operation l stack args s = Returned tt s' ->
  console_output (trace s') =
    (console_output (trace s) ++ [(severity_stream l, line)])%list.
Proof.
  intros Hformat Hp Htime Hlevel Hle Hargs. cbv zeta. intros Hloc Hrun.
  destruct (returned_call_lines _ _ _ _ _ Hle Hrun)
    as (content & Hjoin & Hconsole & _).
  rewrite (join_boxed _ Hargs) in Hjoin. injection Hjoin as <-.
  repeat (apply Forall_cons in Hloc as [? Hloc]).
  unfold console_line, fill_template in Hconsole. rewrite Hformat in Hconsole.
  rewrite (replace_absent _ "{time}"), (replace_absent _ "{level}") in Hconsole
    by (apply no_token_across_content;
        [intros; reflexivity | exact Hp | assumption]).
  unfold JsString.replace at 1 in Hconsole.
  rewrite (split_first_after_plain "content}" p rest Hp) in Hconsole.
  rewrite with_location_absent in Hconsole by assumption.
  exact Hconsole.
Qed.

End Templates.

(** ** The levels and the configuration *)

(** X11. The tags are seven characters wide and differ from level to
    level, and the console tag of a level is its file tag, coloured. *)
Theorem tags_are_aligned `{Platform} (l l' : LEVEL.t) :
  String.length (LEVEL_TAG l) = 7%nat /\
  (LEVEL_TAG l = LEVEL_TAG l' -> l = l') /\
  exists style, LEVEL_COLOR l = chalk style (LEVEL_TAG l).
Proof.
  split; [destruct l; reflexivity|]. split.
  - destruct l, l'; intros E; try reflexivity; discriminate.
  - destruct l; eexists; reflexivity.
Qed.

(** X12. The bounds of the filter: a notice is let through at every
    minimum level, and at the minimum level debug every level is. *)
Theorem filter_bounds `{Platform} (l : LEVEL.t) (s : State) :
  checkLevel LEVEL.notice s = Returned true s /\
  (_level (this s) = LEVEL.debug -> checkLevel l s = Returned true s) /\
  (LEVEL.rank l < LEVEL.rank (_level (this s)) <-> checkLevel l s = Returned false s).
Proof.
  unfold checkLevel, bind, gets, ret. split; [|split].
  - destruct (_level (this s)); reflexivity.
  - intros ->. destruct l; reflexivity.
  - destruct (Z.leb_spec (LEVEL.rank (_level (this s))) (LEVEL.rank l)); split;
      intros E; try reflexivity; try lia; discriminate.
Qed.

(** X13. A setter changes the one property it names: the other four
    getters read what they read before; the setters of any two different
    properties commute, for each of the ten pairs; and of two settings of
    one property the last one stands, for each of the five. *)
Theorem setters_are_independent (this : Logger)
    (dir dir' format format' timeFmt timeFmt' : string) (flag flag' : bool)
    (l l' : LEVEL.t) :
  ((writeFile (set_path dir this) = writeFile this /\
    level (set_path dir this) = level this /\
    timeFormat (set_path dir this) = timeFormat this /\
    logFormat (set_path dir this) = logFormat this) /\
   (path (set_writeFile flag this) = path this /\
    level (set_writeFile flag this) = level this /\
    timeFormat (set_writeFile flag this) = timeFormat this /\
    logFormat (set_writeFile flag this) = logFormat this) /\
   (path (set_level l this) = path this /\
    writeFile (set_level l this) = writeFile this /\
    timeFormat (set_level l this) = timeFormat this /\
    logFormat (set_level l this) = logFormat this) /\
   (path (set_timeFormat timeFmt this) = path this /\
    writeFile (set_timeFormat timeFmt this) = writeFile this /\
    level (set_timeFormat timeFmt this) = level this /\
    logFormat (set_timeFormat timeFmt this) = logFormat this) /\
   (path (set_logFormat format this) = path this /\
    writeFile (set_logFormat format this) = writeFile this /\
    level (set_logFormat format this) = level this /\
    timeFormat (set_logFormat format this) = timeFormat this)) /\
  (set_path dir (set_writeFile flag this)
     = set_writeFile flag (set_path dir this) /\
   set_path dir (set_level l this) = set_level l (set_path dir this) /\
   set_path dir (set_timeFormat timeFmt this)
     = set_timeFormat timeFmt (set_path dir this) /\
   set_path dir (set_logFormat format this)
     = set_logFormat format (set_path dir this) /\
   set_writeFile flag (set_level l this)
     = set_level l (set_writeFile flag this) /\
   set_writeFile flag (set_timeFormat timeFmt this)
     = set_timeFormat timeFmt (set_writeFile flag this) /\
   set_writeFile flag (set_logFormat format this)
     = set_logFormat format (set_writeFile flag this) /\
   set_level l (set_timeFormat timeFmt this)
     = set_timeFormat timeFmt (set_level l this) /\
   set_level l (set_logFormat format this)
     = set_logFormat format (set_level l this) /\
   set_timeFormat timeFmt (set_logFormat format this)
     = set_logFormat format (set_timeFormat timeFmt this)) /\
  (set_path dir' (set_path dir this) = set_path dir' this /\
   set_writeFile flag' (set_writeFile flag this) = set_writeFile flag' this /\
   set_level l' (set_level l this) = set_level l' this /\
   set_timeFormat timeFmt' (set_timeFormat timeFmt this)
     = set_timeFormat timeFmt' this /\
   set_logFormat format' (set_logFormat format this)
     = set_logFormat format' this).
Proof. repeat split. Qed.

(** ** After a rotation *)

Section Sequences.
Context `{Platform}.

(** X14. A rotation starts a file that is young again: the call that
    rotates is followed, for less than a day, by calls that append to the
    new [latest.log] and rename nothing, the archive staying as it is. *)
Theorem rotation_is_followed_by_appends (stack stack' : list StackFrame)
    (l l' : LEVEL.t) (line line' : string) (s : State) (d : fs.Directory)
    (f : fs.File) (delta : Z) :
  doWrite (this s) = true ->
  fs.dirs (files s) !! logPath (this s) = Some d ->
  fs.entries d !! "latest.log" = Some f ->
  86400000 <= clock s - fs.birthtimeMs f ->
  fs.dir_writable d = true ->
  delta < 86400000 ->
  let dir := logPath (this s) in
  let first_line := file_line (this s) (clock s) l line stack +:+ LF in
  let second_line :=
    file_line (this s) (clock s + delta) l' line' stack' +:+ LF in
  exists s1 s2,
    writeLine stack l line s = Returned tt s1 /\
    writeLine stack' l' line' (later delta s1) = Returned tt s2 /\
    fs.lookup_file (files s2) dir "latest.log" =
      Some {| fs.content := first_line +:+ second_line;
              fs.birthtimeMs := clock s; fs.file_writable := true |} /\
    fs.lookup_file (files s2) dir (archive_name f) = Some f /\
    trace s2 =
      (trace s1 ++
       [FsCall (ExistsSync dir); ClockRead; StackCapture;
        FsCall (StatSync dir "latest.log"); ClockRead;
        FsCall (AppendFileSync dir "latest.log" second_line)])%list.
Proof.
  intros Hw Hd Hf Hold Hdw Hdelta. cbv zeta.
  rewrite (writeLine_on _ _ _ _ Hw), prepare_run, Hd.
  erewrite rotating_append_old; [|exact Hd|exact Hf|exact Hold].
  cbn zeta. rewrite Hdw. eexists _, _. split; [reflexivity|].
  match goal with
  | |- writeLine _ _ _ (later _ ?s1) = _ /\ _ => set (after_first := s1)
  end.
  assert (doWrite (this (later delta after_first)) = true) as Hw' by exact Hw.
  rewrite (writeLine_on _ _ _ _ Hw'), prepare_run.
  cbn [files this later after_first put_files add_event fs.with_dir fs.dirs].
  rewrite lookup_insert_eq.
  erewrite rotating_append_young;
    [ | cbn [files later put_files add_event fs.with_dir fs.dirs];
        apply lookup_insert_eq
      | cbn [fs.entries]; apply lookup_insert_eq
      | unfold after_first;
        cbn [clock later put_files add_event fs.birthtimeMs]; lia ].
  cbn zeta. cbn [fs.file_writable]. split; [reflexivity|].
  cbn [files put_files add_event later trace this clock].
  split; [|split].
  - rewrite lookup_file_with_dir. cbn [fs.entries]. rewrite lookup_insert_eq.
    reflexivity.
  - rewrite lookup_file_with_dir. cbn [fs.entries].
    rewrite !lookup_insert_ne by (apply not_eq_sym, archive_is_not_latest).
    apply lookup_insert_eq.
  - unfold after_first. cbn [trace put_files add_event].
    rewrite <- !app_assoc. reflexivity.
Qed.

End Sequences.

(** ** Inspection *)

Section Inspection.
Context `{Platform}.

(** X15. In a call that is let through, util.inspect is called once for
    each argument whose typeof is "object", in the order of the arguments
    and before anything else is done; for no other argument, and never
    again in the call. *)
Theorem inspection_comes_first (l : LEVEL.t) (stack : list StackFrame)
    (args : list JsValue) (s : State) :
  LEVEL.rank (_level (this s)) <= LEVEL.rank l ->
  exists evs,
    trace (final_state (operation l stack args s)) =
      (trace s ++ inspect_calls args ++ evs)%list /\
    Forall (fun e => is_inspection e = false) evs /\
    inspect_calls args =
      map InspectCall (List.filter (fun v => String.eqb (typeof v) "object") args).
Proof.
  intros Hle. rewrite operation_is_log, (log_passed _ _ _ _ Hle).
  assert (inspect_calls args =
          map InspectCall
            (List.filter (fun v => String.eqb (typeof v) "object") args)) as Hcalls.
  { induction args as [|v rest IH]; [reflexivity|].
    cbn [inspect_calls List.filter]. unfold is_object.
    destruct (String.eqb (typeof v) "object"); cbn [map]; rewrite IH; reflexivity. }
  destruct (join (map boxed args) " ") as [e|content].
  - exists []. cbn [final_state trace add_events].
    rewrite app_nil_r. repeat split; [constructor | exact Hcalls].
  - destruct (keeps_writeLine (fun e => is_inspection e = false)
                (at_ "Logger.log" 232 10 :: op_frame l :: stack) l content
                eq_refl eq_refl (fun _ => eq_refl)
                (add_events (inspect_calls args) s))
      as (_ & _ & evs & Htrace & Hevs).
    destruct (writeLine _ l content _) as [[] s2|e s2];
      cbn [final_state] in *.
    + exists (evs ++ [ClockRead; StackCapture;
                      Console (severity_stream l)
                        (console_line (this s2) (clock s2) l content
                           (op_frame l :: stack))])%list.
      split; [|split; [|exact Hcalls]].
      * cbn [trace add_event]. rewrite Htrace. cbn [trace add_events].
        rewrite <- !app_assoc. reflexivity.
      * apply Forall_app. split; [exact Hevs | repeat constructor].
    + exists evs. split; [|split; [exact Hevs | exact Hcalls]].
      rewrite Htrace. cbn [trace add_events]. rewrite <- app_assoc. reflexivity.
Qed.

End Inspection.

(** ** The claims on concrete runs *)

#[local] Existing Instance Demo.platform.

(** Runs the call of a goal [exists s', call = outcome s' /\ _] and takes
    the state it ends in for [s']. *)
Ltac run_call :=
  match goal with
  | |- exists s', ?call = _ /\ _ =>
      exists (final_state call); split; [vm_compute; reflexivity|]
  end.

Example replace_first_only :
  JsString.replace "{a} and {a}" "{a}" "x" = "x and {a}".
Proof. reflexivity. Qed.

Example replace_dollar_patterns :
  JsString.replace "<{c}>" "{c}" "$$5 $& $` $' $1" = "<$5 {c} < > $1>".
Proof. reflexivity. Qed.

Example default_directory :
  path (createInstance "/srv/app") = "/srv/app/logs" /\
  path (createInstance "/") = "/logs".
Proof. split; reflexivity. Qed.

(** C1 at work: a log born a day and a millisecond ago is archived under
    its creation date and the new file holds the new line alone. *)
Lemma rotated_after_a_day :
  exists s',
    writeLine Demo.writeLine_stack LEVEL.info "restarted" Demo.aged
      = Returned tt s' /\
    fs.lookup_file (files s') Demo.logs_dir "output-2026-10-31.log"
      = Some Demo.old_log /\
    fs.content <$> fs.lookup_file (files s') Demo.logs_dir "latest.log"
      = Some ("11/1/2026 12:00:00 [ info  ] restarted" +:+ LF).
Proof.
  destruct (rotation_by_age Demo.writeLine_stack LEVEL.info "restarted" Demo.aged
              {| fs.entries := {[ "latest.log" := Demo.old_log ]};
                 fs.dir_writable := true |}
              Demo.old_log eq_refl eq_refl eq_refl)
    as [Hold _].
  destruct Hold as (s' & Hrun & Harchive & Hlatest & _);
    [apply Z.leb_le; reflexivity | eexists; vm_compute; reflexivity |].
  exists s'. split; [exact Hrun|].
  split; [exact Harchive|]. exact (f_equal (fmap fs.content) Hlatest).
Defined.

(** C1 at work: a log born a second ago is appended to. *)
Example appended_within_a_day :
  exists s',
    writeLine Demo.writeLine_stack LEVEL.info "restarted" Demo.recent
      = Returned tt s' /\
    fs.content <$> fs.lookup_file (files s') Demo.logs_dir "latest.log"
      = Some ("11/1/2026 11:59:59 [ info  ] started" +:+ LF +:+
              "11/1/2026 12:00:00 [ info  ] restarted" +:+ LF) /\
    fs.lookup_file (files s') Demo.logs_dir "output-2026-11-01.log" = None.
Proof. run_call. split; vm_compute; reflexivity. Qed.

(** C1 fails where the rename or the append is refused.  The old log, a
    day and a millisecond of age, sits in a directory the process may not
    write: the call returns, no archive was made, and [latest.log] holds
    the new line with the birth time it had.  The young log may not be
    opened for writing: the call throws and the file is as it was. *)
Lemma refused_rename_leaves_no_archive :
  (fs.lookup_file (files Demo.aged_read_only) Demo.logs_dir "latest.log"
     = Some Demo.old_log /\
   86400000 <= clock Demo.aged_read_only - fs.birthtimeMs Demo.old_log /\
   exists s',
     writeLine Demo.writeLine_stack LEVEL.info "restarted" Demo.aged_read_only
       = Returned tt s' /\
     fs.lookup_file (files s') Demo.logs_dir "output-2026-10-31.log" = None /\
     fs.lookup_file (files s') Demo.logs_dir "latest.log"
       = Some {| fs.content := "11/1/2026 12:00:00 [ info  ] restarted" +:+ LF;
                 fs.birthtimeMs := fs.birthtimeMs Demo.old_log;
                 fs.file_writable := true |}) /\
  (fs.lookup_file (files Demo.recent_locked) Demo.logs_dir "latest.log"
     = Some Demo.locked_log /\
   clock Demo.recent_locked - fs.birthtimeMs Demo.locked_log < 86400000 /\
   exists s',
     writeLine Demo.writeLine_stack LEVEL.info "restarted" Demo.recent_locked
       = Thrown (SystemError EACCES "open") s' /\
     fs.lookup_file (files s') Demo.logs_dir "latest.log"
       = Some Demo.locked_log).
Proof.
  split; (split; [reflexivity|]); (split; [apply Z.leb_le || apply Z.ltb_lt; reflexivity|]).
  - run_call. split; vm_compute; reflexivity.
  - run_call. vm_compute; reflexivity.
Qed.

(** C2 as stated fails: the old log sits in a directory the process may
    not write, so the rename fails with EACCES; the logging call returns all
    the same, and [latest.log] holds the new line in place of what it held. *)
Lemma rename_failure_is_swallowed :
  fs.renameSync (files Demo.aged_read_only) Demo.logs_dir "latest.log"
    "output-2026-10-31.log" = inl EACCES /\
  exists s',
    info Demo.user_stack [JString "restarted"] Demo.aged_read_only
      = Returned tt s' /\
    FsCall (RenameSync Demo.logs_dir "latest.log" "output-2026-10-31.log")
      ∈ trace s' /\
    fs.content <$> fs.lookup_file (files s') Demo.logs_dir "latest.log"
      = Some ("11/1/2026 12:00:00 [ info  ] restarted" +:+ LF) /\
    fs.lookup_file (files s') Demo.logs_dir "output-2026-10-31.log" = None.
Proof.
  split; [reflexivity|]. run_call.
  split; [|split; vm_compute; reflexivity].
  vm_compute. do 5 apply list_elem_of_further. apply list_elem_of_here.
Qed.

(** C2, amended, at work.  On the same directory the refused rename is
    followed by the write, and the call returns.  On a young log that may
    not be opened for writing the refused append is followed by the write,
    refused as well, and that is the error the caller sees. *)
Lemma unwritable_directory_overwrites :
  (exists s',
     writeLine Demo.writeLine_stack LEVEL.info "restarted" Demo.aged_read_only
       = Returned tt s' /\
     fs.lookup_file (files s') Demo.logs_dir "latest.log"
       = Some {| fs.content := "11/1/2026 12:00:00 [ info  ] restarted" +:+ LF;
                 fs.birthtimeMs := fs.birthtimeMs Demo.old_log;
                 fs.file_writable := true |}) /\
  (exists s',
     writeLine Demo.writeLine_stack LEVEL.info "restarted" Demo.recent_locked
       = Thrown (SystemError EACCES "open") s' /\
     trace s' =
       [FsCall (ExistsSync Demo.logs_dir); ClockRead; StackCapture;
        FsCall (StatSync Demo.logs_dir "latest.log"); ClockRead;
        FsCall (AppendFileSync Demo.logs_dir "latest.log"
                  ("11/1/2026 12:00:00 [ info  ] restarted" +:+ LF));
        FsCall (WriteFileSync Demo.logs_dir "latest.log"
                  ("11/1/2026 12:00:00 [ info  ] restarted" +:+ LF))]).
Proof.
  split.
  - destruct (append_failures_fall_back Demo.writeLine_stack LEVEL.info
                "restarted" Demo.aged_read_only eq_refl)
      as [Hcaught _].
    destruct (Hcaught {| fs.entries := {[ "latest.log" := Demo.old_log ]};
                         fs.dir_writable := false |} eq_refl)
      as (_ & Hrename & _).
    destruct (Hrename Demo.old_log eq_refl) as (_ & s' & Hrun & Hlatest & _);
      [apply Z.leb_le; reflexivity | reflexivity | reflexivity |].
    exists s'. split; [exact Hrun | exact Hlatest].
  - destruct (append_failures_fall_back Demo.writeLine_stack LEVEL.info
                "restarted" Demo.recent_locked eq_refl)
      as [Hcaught _].
    destruct (Hcaught {| fs.entries := {[ "latest.log" := Demo.locked_log ]};
                         fs.dir_writable := true |} eq_refl)
      as (_ & _ & Happend).
    destruct (Happend Demo.locked_log eq_refl) as (_ & _ & s' & Hrun & _ & Htrace);
      [apply Z.ltb_lt; reflexivity | reflexivity |].
    exists s'. split; [exact Hrun | exact Htrace].
Defined.

(** C3 fails for the file variant: called from [handleRequest] in
    /srv/app/server.js, the console line names that call site, and the line
    written to the file names the logger's own [info] method. *)
Theorem file_variant_reports_logger_frame :
  exists s',
    info Demo.user_stack [JString "hello"]
      (Demo.start Demo.locating (Demo.disk Demo.logs_dir ∅ true))
      = Returned tt s' /\
    console_output (trace s')
      = [(StandardOutput, "/srv/app/server.js:42 (handleRequest) hello")] /\
    fs.content <$> fs.lookup_file (files s') Demo.logs_dir "latest.log"
      = Some ("src/index.ts:175 (Logger.info) hello" +:+ LF).
Proof. run_call. split; vm_compute; reflexivity. Qed.

(** C4 at work: a debug call on a new instance, whose level is info. *)
Lemma debug_is_filtered_by_default :
  debug Demo.user_stack [JString "starting"] Demo.fresh = Returned tt Demo.fresh.
Proof.
  exact (filtered_call_does_nothing LEVEL.debug LEVEL.info Demo.user_stack
           [JString "starting"] Demo.fresh eq_refl eq_refl).
Defined.

(** C5 at work with the default template. *)
Example token_in_content_is_replaced :
  console_output
    (trace (final_state
              (info Demo.user_stack [JString "seen in {fileName}"] Demo.fresh)))
  = [(StandardOutput,
      "11/1/2026 12:00:00 [" +:+ Demo.ansi blue " info  " +:+
      "] seen in /srv/app/server.js")].
Proof. reflexivity. Qed.

(** C6 as stated fails: undefined is a primitive whose string form is
    "undefined", and the content string has nothing in its place. *)
Lemma undefined_renders_as_nothing :
  parse_args [JString "value:"; JUndefined] [] Demo.fresh
    = Returned [JString "value:"; JUndefined] Demo.fresh /\
  join [JString "value:"; JUndefined] " " = inr "value: " /\
  spec_content [JString "value:"; JUndefined] = "value: undefined".
Proof. repeat split. Qed.

(** C6, amended, at work on the arguments ("hello", 3, "args"). *)
Lemma hello_3_args :
  exists parsed,
    parse_args [JString "hello"; JNumber 3; JString "args"] [] Demo.fresh
      = Returned parsed Demo.fresh /\
    join parsed " " = inr "hello 3 args".
Proof.
  destruct (content_rendering [JString "hello"; JNumber 3; JString "args"]
              Demo.fresh)
    as (parsed & Hparse & Hjoin & _).
  - repeat constructor.
  - exists parsed. split; [exact Hparse | exact Hjoin].
Defined.





(** ** Further runs *)

(** X2 at work: the recent log may not be written, the call throws, and
    the console has nothing new. *)
Lemma locked_log_prints_nothing :
  console_output
    (trace (final_state
              (info Demo.user_stack [JString "restarted"] Demo.recent_locked)))
  = console_output (trace Demo.recent_locked).
Proof.
  apply (failed_call_prints_nothing LEVEL.info Demo.user_stack
           [JString "restarted"] Demo.recent_locked _
           (SystemError EACCES "open")).
  vm_compute. reflexivity.
Defined.

(** X3 at work on the same call: the append is refused, the handler's
    write is the last call made, and the error is its error. *)
Lemma locked_log_error_is_the_write :
  exists s',
    info Demo.user_stack [JString "restarted"] Demo.recent_locked
      = Thrown (SystemError EACCES "open") s' /\
    fs.writeFileSync (files s') (clock Demo.recent_locked) Demo.logs_dir
      "latest.log" ("11/1/2026 12:00:00 [ info  ] restarted" +:+ LF)
      = inl EACCES /\
    last (trace s') =
      Some (FsCall (WriteFileSync Demo.logs_dir "latest.log"
                      ("11/1/2026 12:00:00 [ info  ] restarted" +:+ LF))).
Proof.
  run_call.
  destruct (escaping_errors LEVEL.info Demo.user_stack [JString "restarted"]
              Demo.recent_locked
              (final_state
                 (info Demo.user_stack [JString "restarted"] Demo.recent_locked))
              (SystemError EACCES "open"))
    as [[Htype _]|(_ & code & content & Hjoin & [(He & _)|(He & Hwrite & Hlast)])].
  - vm_compute. reflexivity.
  - discriminate Htype.
  - discriminate He.
  - injection He as <-. injection Hjoin as <-.
    split; [exact Hwrite | exact Hlast].
Defined.


(** X6 at work: the parent of the log directory is missing. *)
Lemma missing_parent_fails_the_call :
  exists s',
    info Demo.user_stack [JString "starting"] Demo.no_parent
      = Thrown (SystemError ENOENT "mkdir") s' /\
    files s' = files Demo.no_parent.
Proof.
  destruct (mkdir_failure_propagates LEVEL.info Demo.user_stack
              [JString "starting"] Demo.no_parent ENOENT)
    as (s' & Hrun & Hfiles & _).
  - apply Z.leb_le. reflexivity.
  - repeat constructor.
  - reflexivity.
  - reflexivity.
  - reflexivity.
  - exists s'. split; [exact Hrun | exact Hfiles].
Defined.

(** X7 at work: the first call makes the directory and the file. *)
Lemma first_call_makes_the_directory :
  exists s',
    info Demo.user_stack [JString "starting"] Demo.no_directory
      = Returned tt s' /\
    FsCall (MkdirSync Demo.logs_dir) ∈ trace s'.
Proof.
  destruct (missing_directory_is_created LEVEL.info Demo.user_stack
              [JString "starting"] Demo.no_directory)
    as (s' & Hrun & _ & Hmkdir).
  - apply Z.leb_le. reflexivity.
  - repeat constructor.
  - reflexivity.
  - reflexivity.
  - reflexivity.
  - exists s'. split; [exact Hrun | exact Hmkdir].
Defined.


(** X9 at work. *)
Lemma mark_is_printed_as_it_stands :
  console_output
    (trace (final_state
              (warning Demo.user_stack [JString "ignored"]
                 (Demo.start Demo.marking (Demo.disk Demo.logs_dir ∅ true)))))
  = [(WarningStream, "---- mark ----")].
Proof.
  refine (proj1 (template_without_tokens LEVEL.warning Demo.user_stack
                   [JString "ignored"]
                   (Demo.start Demo.marking (Demo.disk Demo.logs_dir ∅ true))
                   _ _ _ _)).
  - repeat constructor.
  - apply Z.leb_le. reflexivity.
  - vm_compute. reflexivity.
Defined.

(** X10 at work: one dollar sign of two is printed, and the second token
    stays. *)
Lemma doubled_template_and_dollars :
  console_output
    (trace (final_state
              (info Demo.user_stack [JString "a$$b"]
                 (Demo.start Demo.doubled (Demo.disk Demo.logs_dir ∅ true)))))
  = [(StandardOutput, "a$b | {content}")].
Proof.
  refine (content_token_replaced_once LEVEL.info Demo.user_stack
            [JString "a$$b"]
            (Demo.start Demo.doubled (Demo.disk Demo.logs_dir ∅ true))
            _ EmptyString " | {content}" eq_refl eq_refl eq_refl eq_refl
            _ _ _ _).
  - apply Z.leb_le. reflexivity.
  - repeat constructor.
  - repeat constructor.
  - vm_compute. reflexivity.
Defined.

(** X14 at work: the call after the rotation, a second later. *)
Lemma second_call_appends :
  exists s1 s2,
    writeLine Demo.writeLine_stack LEVEL.info "restarted" Demo.aged
      = Returned tt s1 /\
    writeLine Demo.writeLine_stack LEVEL.info "again" (later 1000 s1)
      = Returned tt s2 /\
    fs.content <$> fs.lookup_file (files s2) Demo.logs_dir "latest.log"
      = Some ("11/1/2026 12:00:00 [ info  ] restarted" +:+ LF +:+
              "11/1/2026 12:00:01 [ info  ] again" +:+ LF).
Proof.
  destruct (rotation_is_followed_by_appends Demo.writeLine_stack
              Demo.writeLine_stack LEVEL.info LEVEL.info "restarted" "again"
              Demo.aged
              {| fs.entries := {[ "latest.log" := Demo.old_log ]};
                 fs.dir_writable := true |}
              Demo.old_log 1000 eq_refl eq_refl eq_refl)
    as (s1 & s2 & Hfirst & Hsecond & Hlatest & _).
  - apply Z.leb_le. reflexivity.
  - reflexivity.
  - reflexivity.
  - exists s1, s2. split; [exact Hfirst|]. split; [exact Hsecond|].
    exact (f_equal (fmap fs.content) Hlatest).
Defined.

(** X15 at work: of three arguments the object and null are inspected. *)
Lemma two_of_three_are_inspected :
  exists evs,
    trace (final_state
             (info Demo.user_stack
                [JString "user"; JObject [("a", JNumber 1)]; JNull] Demo.fresh))
    = ([InspectCall (JObject [("a", JNumber 1)]); InspectCall JNull] ++ evs)%list /\
    Forall (fun e => is_inspection e = false) evs.
Proof.
  destruct (inspection_comes_first LEVEL.info Demo.user_stack
              [JString "user"; JObject [("a", JNumber 1)]; JNull] Demo.fresh)
    as (evs & Htrace & Hevs & _).
  - apply Z.leb_le. reflexivity.
  - exists evs. split; [exact Htrace | exact Hevs].
Defined.
